(** * CommuteOptimizer: the Flask file server of TestBuild/server.py

    A shallow embedding of [server.py] and of the parts of its run-time
    environment that the handlers call: Python's [str] and [posixpath]
    helpers, a filesystem with [os.path.exists], [os.listdir] and
    [os.makedirs], werkzeug's [safe_join] and [send_from_directory], Flask's
    request dispatch with its error handlers, and the after-request hook that
    [CORS(app)] installs.

    Conventions of the model:
    - the process runs in the application's root directory, so the relative
      paths ['data'] and ['.'] of the script and the paths that Flask resolves
      against [app.root_path] name the same files;
    - the directory tree holds regular files and directories only: no
      symbolic links and no permission bits;
    - requests are plain [GET] requests: a path and an optional [Origin]
      header, without conditional or range headers;
    - a request path is matched against the rules as it stands.  Before
      that, werkzeug strips extra leading slashes, and for a path with an
      empty segment that matches no rule it tries the path with the slashes
      merged and redirects to it; neither is modelled, and the statements
      about a path that no rule matches are about the paths of
      [Flask.plain_path], on which werkzeug does neither;
    - [print] calls are left out: they touch neither the filesystem nor a
      response. *)

From Stdlib Require Import Ascii String ZArith.
From stdpp Require Import gmap strings list fin_maps.

Local Open Scope string_scope.
Local Open Scope list_scope.

(** ** Python strings *)

Module Py.

(** [s.startswith(prefix)] *)
Definition startswith (s prefix : string) : bool := String.prefix prefix s.

(** [s.endswith(suffix)]: the last [len(suffix)] characters of [s] are
    [suffix]. *)
Definition endswith (s suffix : string) : bool :=
  (String.length suffix <=? String.length s)%nat &&
  String.eqb
    (String.substring (String.length s - String.length suffix)
                      (String.length suffix) s)
    suffix.

Definition slash : ascii := "/"%char.

(** [sep in s] for the one-character separator ["/"]. *)
Fixpoint has_slash (s : string) : bool :=
  match s with
  | EmptyString => false
  | String c s' => Ascii.eqb c slash || has_slash s'
  end.

(** [s.split('/')]: never empty, one more component than there are
    slashes. *)
Fixpoint split_slash (s : string) : list string :=
  match s with
  | EmptyString => [EmptyString]
  | String c s' =>
      if Ascii.eqb c slash then EmptyString :: split_slash s'
      else match split_slash s' with
           | h :: t => String c h :: t
           | [] => [String c EmptyString]
           end
  end.

(** ['/'.join(comps)] *)
Fixpoint join_slash (comps : list string) : string :=
  match comps with
  | [] => EmptyString
  | [c] => c
  | c :: rest => c +:+ "/" +:+ join_slash rest
  end.

(** [posixpath.normpath]:
<<
    if not path: return '.'
    initial_slashes = path.startswith('/')
    if (initial_slashes and path.startswith('//')
            and not path.startswith('///')):
        initial_slashes = 2
    comps = path.split('/')
    new_comps = []
    for comp in comps:
        if comp in ('', '.'): continue
        if (comp != '..' or (not initial_slashes and not new_comps) or
                (new_comps and new_comps[-1] == '..')):
            new_comps.append(comp)
        elif new_comps:
            new_comps.pop()
    path = '/'.join(new_comps)
    if initial_slashes: path = '/' * initial_slashes + path
    return path or '.'
>>
*)
Definition initial_slashes (path : string) : nat :=
  if startswith path "/" then
    if startswith path "//" && negb (startswith path "///") then 2 else 1
  else 0.

Definition normpath_step (init : nat) (new_comps : list string)
    (comp : string) : list string :=
  if bool_decide (comp = EmptyString) || bool_decide (comp = ".") then new_comps
  else if negb (bool_decide (comp = ".."))
          || (bool_decide (init = 0) && bool_decide (new_comps = []))
          || bool_decide (last new_comps = Some "..")
       then new_comps ++ [comp]
       else removelast new_comps.

Fixpoint repeat_slash (n : nat) : string :=
  match n with
  | O => EmptyString
  | S n' => String slash (repeat_slash n')
  end.

Definition normpath (path : string) : string :=
  if bool_decide (path = EmptyString) then "."
  else
    let init := initial_slashes path in
    let new_comps := fold_left (normpath_step init) (split_slash path) [] in
    let joined := repeat_slash init +:+ join_slash new_comps in
    if bool_decide (joined = EmptyString) then "." else joined.

(** [posixpath.join(a, b)] for two arguments:
<<
    if b.startswith('/'): path = b
    elif not path or path.endswith('/'): path += b
    else: path += '/' + b
>>
*)
Definition path_join (a b : string) : string :=
  if startswith b "/" then b
  else if bool_decide (a = EmptyString) || endswith a "/" then a +:+ b
  else a +:+ "/" +:+ b.

(** [posixpath.isabs] *)
Definition isabs (s : string) : bool := startswith s "/".

End Py.

(** ** Python exceptions and the effect monad *)

(** The exception classes that this program and the library calls it makes
    can raise.  [HTTPException code] stands for werkzeug's HTTP exceptions;
    [werkzeug.exceptions.NotFound] is the one with code 404.  None of the
    listed [OSError] subclasses is a subclass of another. *)
Inductive exn : Type :=
  | FileNotFoundError
  | NotADirectoryError
  | IsADirectoryError
  | FileExistsError
  | HTTPException (code : Z).

Definition NotFound : exn := HTTPException 404.

#[global] Instance exn_eq_dec : EqDecision exn.
Proof. solve_decision. Defined.

(** A filesystem entry: a regular file with its bytes, or a directory. *)
Inductive node : Type :=
  | File (content : list Byte.byte)
  | Dir.

(** The filesystem calls a computation makes, in order. *)
Inductive io_event : Type :=
  | EvExists (p : string)
  | EvIsFile (p : string)
  | EvListdir (p : string)
  | EvRead (p : string)
  | EvMakedirs (p : string).

(** The state threaded through every computation: the files below the working
    directory, keyed by their path components, and the log of filesystem
    calls made so far. *)
Record world : Type := World {
  fs : gmap (list string) node;
  io_log : list io_event
}.

Inductive result (A : Type) : Type :=
  | Ret (a : A)
  | Raise (e : exn).
Arguments Ret {A} a.
Arguments Raise {A} e.

Definition M (A : Type) : Type := world -> result A * world.

Definition ret {A} (a : A) : M A := fun w => (Ret a, w).

Definition raise {A} (e : exn) : M A := fun w => (Raise e, w).

Definition bind {A B} (m : M A) (k : A -> M B) : M B :=
  fun w =>
    match m w with
    | (Ret a, w') => k a w'
    | (Raise e, w') => (Raise e, w')
    end.

Notation "'do' x <- m ; k" := (bind m (fun x => k))
  (at level 10, x name, m at level 100, k at level 200).

(** [try: body except Exception as e: handler(e)] *)
Definition catch {A} (body : M A) (handler : exn -> M A) : M A :=
  fun w =>
    match body w with
    | (Ret a, w') => (Ret a, w')
    | (Raise e, w') => handler e w'
    end.

(** [try: body except E: handler], for the exception classes [E] selected by
    [catches]; any other exception passes through. *)
Definition try_except {A} (body : M A) (catches : exn -> bool)
    (handler : M A) : M A :=
  catch body (fun e => if catches e then handler else raise e).

Definition is_FileNotFoundError (e : exn) : bool :=
  bool_decide (e = FileNotFoundError).

Definition log_event (e : io_event) (w : world) : world :=
  {| fs := fs w; io_log := io_log w ++ [e] |}.

(** ** The [os] module over the modelled filesystem *)

Module Os.

(** A name a directory entry can have. *)
Definition valid_name (n : string) : bool :=
  negb (bool_decide (n = EmptyString)) && negb (bool_decide (n = "."))
  && negb (bool_decide (n = "..")) && negb (Py.has_slash n).

(** Every component of every stored path is an entry name. *)
Definition valid_fs (m : gmap (list string) node) : Prop :=
  map_Forall (fun k _ => Forall (fun n => valid_name n = true) k) m.

(** How the kernel walks a relative path string: empty and ["."] components
    are skipped.  The program passes no path with a [".."] component (see
    [Werkzeug.safe_join]); such a component is kept and names no entry of a
    valid filesystem. *)
Definition resolve (p : string) : list string :=
  filter (fun c => c <> EmptyString /\ c <> ".") (Py.split_slash p).

(** The working directory itself is a directory. *)
Definition lookup_node (m : gmap (list string) node) (k : list string)
    : option node :=
  match k with
  | [] => Some Dir
  | _ => m !! k
  end.

(** The name of [k] inside directory [d], when [k] is an entry of [d]. *)
Fixpoint child_name (d k : list string) : option string :=
  match d, k with
  | [], [n] => Some n
  | c :: d', c' :: k' => if bool_decide (c = c') then child_name d' k' else None
  | _, _ => None
  end.

Definition children (m : gmap (list string) node) (d : list string)
    : list string :=
  omap (fun kv => child_name d kv.1) (map_to_list m).

(** [os.path.exists(p)] *)
Definition path_exists (p : string) : M bool :=
  fun w =>
    (Ret (bool_decide (is_Some (lookup_node (fs w) (resolve p)))),
     log_event (EvExists p) w).

(** [os.path.isfile(p)] *)
Definition path_isfile (p : string) : M bool :=
  fun w =>
    (Ret (match lookup_node (fs w) (resolve p) with
          | Some (File _) => true
          | _ => false
          end),
     log_event (EvIsFile p) w).

(** [os.listdir(p)]: the names of the entries of directory [p]. *)
Definition listdir (p : string) : M (list string) :=
  fun w =>
    let w' := log_event (EvListdir p) w in
    match lookup_node (fs w) (resolve p) with
    | Some Dir => (Ret (children (fs w) (resolve p)), w')
    | Some (File _) => (Raise NotADirectoryError, w')
    | None => (Raise FileNotFoundError, w')
    end.

(** Reading a whole file, as [open(p, 'rb')] followed by [read()]. *)
Definition read_file (p : string) : M (list Byte.byte) :=
  fun w =>
    let w' := log_event (EvRead p) w in
    match lookup_node (fs w) (resolve p) with
    | Some (File c) => (Ret c, w')
    | Some Dir => (Raise IsADirectoryError, w')
    | None => (Raise FileNotFoundError, w')
    end.

(** The directories [os.makedirs] creates on the way down to its target:
    [done] is the part of the path already walked. *)
Fixpoint mkdirs (m : gmap (list string) node) (done rest : list string)
    : option (gmap (list string) node) :=
  match rest with
  | [] => Some m
  | c :: rest' =>
      let k := done ++ [c] in
      match m !! k with
      | Some (File _) => None
      | Some Dir => mkdirs m k rest'
      | None => mkdirs (<[k := Dir]> m) k rest'
      end
  end.

(** [os.makedirs(p)]: creates [p] and the missing directories above it;
    fails when [p] exists already. *)
Definition makedirs (p : string) : M unit :=
  fun w =>
    let w' := log_event (EvMakedirs p) w in
    match lookup_node (fs w) (resolve p) with
    | Some _ => (Raise FileExistsError, w')
    | None =>
        match mkdirs (fs w) [] (resolve p) with
        | Some m' => (Ret tt, {| fs := m'; io_log := io_log w' |})
        | None => (Raise NotADirectoryError, w')
        end
    end.

End Os.

(** ** HTTP messages *)

(** JSON values, as far as [jsonify] is given them here. *)
#[local] Unset Elimination Schemes.
Inductive json : Type :=
  | JStr (s : string)
  | JList (l : list json)
  | JObj (fields : list (string * json)).
#[local] Set Elimination Schemes.

(** The value of field [key] of a JSON object. *)
Definition json_get (key : string) (j : json) : option json :=
  match j with
  | JObj fields => snd <$> List.find (fun kv => String.eqb (fst kv) key) fields
  | _ => None
  end.

Inductive body : Type :=
  | JsonBody (j : json)
  | FileBody (content : list Byte.byte)
  | ErrorPage (code : Z)
  | DebuggerPage (e : exn).

(** A response; [headers] holds the headers beyond [Content-Type]. *)
Record response : Type := Response {
  status : Z;
  mimetype : string;
  headers : list (string * string);
  body_of : body
}.

(** A [GET] request. *)
Record request : Type := Request {
  req_path : string;
  req_origin : option string
}.

Definition header_get (name : string) (r : response) : option string :=
  snd <$> List.find (fun kv => String.eqb (fst kv) name) (headers r).

(** ** werkzeug *)

Module Werkzeug.

(** [mimetypes.guess_type], for the extensions of the files this
    application ships. *)
Definition guess_type (name : string) : option string :=
  if Py.endswith name ".html" then Some "text/html"
  else if Py.endswith name ".csv" then Some "text/csv"
  else if Py.endswith name ".css" then Some "text/css"
  else if Py.endswith name ".js" then Some "text/javascript"
  else None.

(** [werkzeug.security.safe_join(directory, filename)] on POSIX, where
    [_os_alt_seps] is empty:
<<
    if not directory: directory = "."
    if filename != "": filename = posixpath.normpath(filename)
    if (any(sep in filename for sep in _os_alt_seps)
            or os.path.isabs(filename)
            or filename.startswith("/")
            or filename == ".."
            or filename.startswith("../")):
        return None
    return posixpath.join(directory, filename)
>>
    An empty filename adds nothing: the result is the directory itself. *)
Definition safe_join (directory filename : string) : option string :=
  let directory :=
    if bool_decide (directory = EmptyString) then "." else directory in
  let filename :=
    if bool_decide (filename = EmptyString) then filename
    else Py.normpath filename in
  if Py.isabs filename || Py.startswith filename "/"
     || bool_decide (filename = "..") || Py.startswith filename "../"
  then None
  else if bool_decide (filename = EmptyString) then Some directory
  else Some (Py.path_join directory filename).

(** [send_file(path, mimetype=...)]: opens the file and wraps its bytes in a
    200 response; the content type is the given one, else the one guessed
    from the name, else [application/octet-stream]. *)
Definition send_file (path : string) (mt : option string) : M response :=
  do content <- Os.read_file path;
  ret {| status := 200;
         mimetype := default (default "application/octet-stream"
                                      (guess_type path)) mt;
         headers := [];
         body_of := FileBody content |}.

(** [send_from_directory(directory, path, mimetype=...)], to which
    [flask.send_from_directory] passes its arguments:
<<
    path_str = safe_join(directory, path)
    if path_str is None: raise NotFound()
    if not os.path.isfile(path_str): raise NotFound()
    return send_file(path_str, **kwargs)
>>
*)
Definition send_from_directory (directory path : string)
    (mt : option string) : M response :=
  match safe_join directory path with
  | None => raise NotFound
  | Some path_str =>
      do isf <- Os.path_isfile path_str;
      if isf then send_file path_str mt else raise NotFound
  end.

End Werkzeug.

(** ** Flask *)

Module Flask.

(** [jsonify(obj)]: a 200 response with a JSON body. *)
Definition jsonify (j : json) : response :=
  {| status := 200; mimetype := "application/json"; headers := [];
     body_of := JsonBody j |}.

(** A view that returns the tuple [(rv, code)] answers [rv] with status
    [code]. *)
Definition with_status (rv : response) (code : Z) : response :=
  {| status := code; mimetype := mimetype rv; headers := headers rv;
     body_of := body_of rv |}.

(** What the script configures on its [Flask] object: the routes, the error
    handlers registered by status code, the after-request hooks and the
    debug flag. *)
Record app : Type := App {
  url_map : string -> option (M response);
  error_handlers : Z -> option (exn -> M response);
  after_request_funcs : list (request -> response -> response);
  debug : bool
}.

(** The rest of [s] after [prefix], when [s] starts with it. *)
Fixpoint after_prefix (prefix s : string) : option string :=
  match prefix with
  | EmptyString => Some s
  | String c prefix' =>
      match s with
      | String d s' => if Ascii.eqb c d then after_prefix prefix' s' else None
      | EmptyString => None
      end
  end.

(** The default URL converter of a rule variable [<name>]: one non-empty
    path segment, [[^/]+]. *)
Definition is_segment (s : string) : bool :=
  negb (bool_decide (s = EmptyString)) && negb (Py.has_slash s).

(** The [<path:name>] converter: non-empty, not starting with a slash. *)
Definition is_subpath (s : string) : bool :=
  negb (bool_decide (s = EmptyString)) && negb (Py.startswith s "/").

(** [s] holds two slashes in a row. *)
Fixpoint has_empty_segment (s : string) : bool :=
  match s with
  | String c ((String d _) as s') =>
      (Ascii.eqb c Py.slash && Ascii.eqb d Py.slash) || has_empty_segment s'
  | _ => false
  end.

(** A request path on which werkzeug neither strips nor merges slashes: it
    starts with one slash and has no empty segment inside. *)
Definition plain_path (path : string) : bool :=
  Py.startswith path "/" && negb (has_empty_segment path).

(** The rule [/static/<path:filename>] that [Flask(__name__)] registers by
    itself; its view sends the file from the [static] folder. *)
Definition static_rule (path : string) : option (M response) :=
  match after_prefix "/static/" path with
  | Some filename =>
      if is_subpath filename
      then Some (Werkzeug.send_from_directory "static" filename None)
      else None
  | None => None
  end.

(** The response of an HTTP exception that no handler is registered for. *)
Definition default_error (code : Z) : response :=
  {| status := code; mimetype := "text/html"; headers := [];
     body_of := ErrorPage code |}.

(** Routing and the call of the matched view; an unmatched URL raises
    [NotFound]. *)
Definition dispatch_request (a : app) (req : request) : M response :=
  match url_map a (req_path req) with
  | Some view => view
  | None =>
      match static_rule (req_path req) with
      | Some view => view
      | None => raise NotFound
      end
  end.

Definition handle_http_exception (a : app) (code : Z) : M response :=
  match error_handlers a code with
  | Some handler => handler (HTTPException code)
  | None => ret (default_error code)
  end.

(** HTTP exceptions go to their handler; the script registers no handler
    for an exception class, so anything else is raised again. *)
Definition handle_user_exception (a : app) (e : exn) : M response :=
  match e with
  | HTTPException code => handle_http_exception a code
  | _ => raise e
  end.

Definition process_response (a : app) (req : request) (rv : response)
    : response :=
  fold_left (fun r f => f req r) (after_request_funcs a) rv.

Definition finalize_request (a : app) (req : request) (rv : response)
    : response :=
  process_response a req rv.

Definition full_dispatch_request (a : app) (req : request) : M response :=
  do rv <- catch (dispatch_request a req) (handle_user_exception a);
  ret (finalize_request a req rv).

(** An exception that is not an HTTP exception: raised again when
    exceptions propagate (debug mode), else answered by the handler
    registered for 500. *)
Definition handle_exception (a : app) (req : request) (e : exn)
    : M response :=
  if debug a then raise e
  else
    do rv <- match error_handlers a 500 with
             | Some handler => handler (HTTPException 500)
             | None => ret (default_error 500)
             end;
    ret (finalize_request a req rv).

Definition wsgi_app (a : app) (req : request) : M response :=
  catch (full_dispatch_request a req) (handle_exception a req).

(** The server around the application: an exception that leaves [wsgi_app]
    is answered with a 500 page made outside Flask (in debug mode, the
    interactive debugger's traceback page). *)
Definition traceback_page (e : exn) : response :=
  {| status := 500; mimetype := "text/html"; headers := [];
     body_of := DebuggerPage e |}.

Definition serve (a : app) (req : request) (w : world) : response * world :=
  match wsgi_app a req w with
  | (Ret rv, w') => (rv, w')
  | (Raise e, w') => (traceback_page e, w')
  end.

End Flask.

(** ** flask_cors *)

Module FlaskCors.

Definition ACL_ORIGIN : string := "Access-Control-Allow-Origin".

(** The origin that [get_cors_origins] allows with the default options (all
    origins, [always_send], no [send_wildcard]): the request's own origin
    when its [Origin] header is present and not empty, which is what
    [if request_origin:] tests, and ["*"] otherwise. *)
Definition allow_origin (origin : option string) : string :=
  match origin with
  | Some o => if bool_decide (o = EmptyString) then "*" else o
  | None => "*"
  end.

(** The hook of [CORS(app)] with its default options (all origins, all
    resources, [always_send]): a response that has no allow-origin header
    yet gets one, for the origin that [allow_origin] gives. *)
Definition cors_after_request (req : request) (resp : response)
    : response :=
  match header_get ACL_ORIGIN resp with
  | Some _ => resp
  | None =>
      {| status := status resp; mimetype := mimetype resp;
         headers :=
           headers resp ++ [(ACL_ORIGIN, allow_origin (req_origin req))];
         body_of := body_of resp |}
  end.

End FlaskCors.

(** ** server.py *)

Module Server.

Definition DATA_DIR : string := "data".
Definition HTML_FILE : string := "index.html".
Definition PORT : Z := 5000.

(** The module-level block that runs once at import:
<<
    if not os.path.exists(DATA_DIR):
        os.makedirs(DATA_DIR)
>>
*)
Definition startup : M unit :=
  do present <- Os.path_exists DATA_DIR;
  if negb present then Os.makedirs DATA_DIR else ret tt.

Definition error_body (msg : string) : json := JObj [("error", JStr msg)].

(** [@app.route('/')] *)
Definition index : M response :=
  try_except
    (Werkzeug.send_from_directory "." HTML_FILE None)
    is_FileNotFoundError
    (ret (Flask.with_status
            (Flask.jsonify (error_body "index.html not found")) 404)).

(** [@app.route('/api/<filename>')] *)
Definition serve_csv (filename : string) : M response :=
  if negb (Py.endswith filename ".csv") then
    ret (Flask.with_status
           (Flask.jsonify (error_body "Only CSV files allowed")) 403)
  else
    try_except
      (Werkzeug.send_from_directory DATA_DIR filename (Some "text/csv"))
      is_FileNotFoundError
      (ret (Flask.with_status
              (Flask.jsonify (error_body (filename +:+ " not found"))) 404)).

(** [@app.route('/health')]; the conditional expression tests
    [os.path.exists(DATA_DIR)] first and lists the directory only then. *)
Definition health : M response :=
  do data_files <-
    (do present <- Os.path_exists DATA_DIR;
     if present then Os.listdir DATA_DIR else ret []);
  ret (Flask.jsonify
         (JObj [("status", JStr "healthy");
                ("version", JStr "3.0");
                ("data_files", JList (JStr <$> data_files))])).

(** [@app.errorhandler(404)] *)
Definition not_found (error : exn) : M response :=
  ret (Flask.with_status
         (Flask.jsonify (error_body "Resource not found")) 404).

(** [@app.errorhandler(500)] *)
Definition internal_error (error : exn) : M response :=
  ret (Flask.with_status
         (Flask.jsonify (error_body "Internal server error")) 500).

(** The three [@app.route] rules, matched against the path as it stands. *)
Definition route (path : string) : option (M response) :=
  if bool_decide (path = "/") then Some index
  else if bool_decide (path = "/health") then Some health
  else
    match Flask.after_prefix "/api/" path with
    | Some filename =>
        if Flask.is_segment filename then Some (serve_csv filename) else None
    | None => None
    end.

Definition errorhandler (code : Z) : option (exn -> M response) :=
  if bool_decide (code = 404%Z) then Some not_found
  else if bool_decide (code = 500%Z) then Some internal_error
  else None.

(** [app = Flask(__name__); CORS(app)] with the decorated functions; the
    debug flag is what [app.run] is given. *)
Definition app (debug : bool) : Flask.app :=
  {| Flask.url_map := route;
     Flask.error_handlers := errorhandler;
     Flask.after_request_funcs := [FlaskCors.cors_after_request];
     Flask.debug := debug |}.

Definition required_csvs : list string :=
  ["Locations.csv"; "Tracks.csv"; "Variance.csv"].

(** The checks of the [__main__] block before [app.run]: only
    [os.path.exists] calls, whose results select warnings to print. *)
Definition check_required_files : M unit :=
  do _ <- Os.path_exists HTML_FILE;
  fold_right
    (fun csv rest =>
       do _ <- Os.path_exists (Py.path_join DATA_DIR csv); rest)
    (ret tt) required_csvs.

(** The line printed for a path that is missing. *)
Definition warning (shown : string) : string :=
  "⚠️  Warning: " +:+ shown +:+ " not found!".

(** The same checks with the lines they print, in order:
<<
    if not os.path.exists(HTML_FILE):
        print(f"... Warning: {HTML_FILE} not found!")
    for csv in required_csvs:
        if not os.path.exists(os.path.join(DATA_DIR, csv)):
            print(f"... Warning: {DATA_DIR}/{csv} not found!")
>>
*)
Definition main_warnings : M (list string) :=
  do present <- Os.path_exists HTML_FILE;
  do rest <-
    fold_right
      (fun csv later =>
         do present <- Os.path_exists (Py.path_join DATA_DIR csv);
         do lines <- later;
         ret ((if negb present
               then [warning (DATA_DIR +:+ "/" +:+ csv)] else []) ++ lines))
      (ret []) required_csvs;
  ret ((if negb present then [warning HTML_FILE] else []) ++ rest).


(** The operations of the specification, as the responses to their
    requests. *)
Definition GetEntryDocument (debug : bool) (origin : option string)
    (w : world) : response * world :=
  Flask.serve (app debug) {| req_path := "/"; req_origin := origin |} w.

Definition GetDataFile (debug : bool) (origin : option string)
    (filename : string) (w : world) : response * world :=
  Flask.serve (app debug)
    {| req_path := "/api/" +:+ filename; req_origin := origin |} w.

Definition HealthCheck (debug : bool) (origin : option string)
    (w : world) : response * world :=
  Flask.serve (app debug) {| req_path := "/health"; req_origin := origin |} w.

End Server.

(** ** Vocabulary of the statements *)

(** A filesystem call that changes nothing. *)
Definition read_only (e : io_event) : bool :=
  match e with
  | EvMakedirs _ => false
  | _ => true
  end.

(** A computation that leaves the filesystem as it found it and makes
    read-only calls only. *)
Definition frame {A} (m : M A) : Prop :=
  forall w,
    fs (m w).2 = fs w /\
    exists evs, io_log (m w).2 = io_log w ++ evs /\
                Forall (fun e => read_only e = true) evs.

(** The message of a JSON body of the form [{"error": msg, ...}]. *)
Definition error_message (r : response) : option string :=
  match body_of r with
  | JsonBody j =>
      match json_get "error" j with
      | Some (JStr msg) => Some msg
      | _ => None
      end
  | _ => None
  end.

(** Field [key] of a JSON response. *)
Definition json_field (key : string) (r : response) : option json :=
  match body_of r with
  | JsonBody j => json_get key j
  | _ => None
  end.


(** Something outside the server stores a file between two requests. *)
Definition add_file (k : list string) (c : list Byte.byte) (w : world)
    : world :=
  {| fs := <[k := File c]> (fs w); io_log := io_log w |}.

(** The entries of the data directory, none when the path is absent. *)
Definition data_listing (m : gmap (list string) node) : list string :=
  match m !! [Server.DATA_DIR] with
  | Some Dir => Os.children m [Server.DATA_DIR]
  | _ => []
  end.


(** The 404 and 500 answers of the registered error handlers. *)
Definition not_found_response : response :=
  Flask.with_status
    (Flask.jsonify (Server.error_body "Resource not found")) 404.

Definition internal_error_response : response :=
  Flask.with_status
    (Flask.jsonify (Server.error_body "Internal server error")) 500.

(** The body that [health] builds from the listing it obtained. *)
Definition health_response (data_files : list string) : response :=
  Flask.jsonify
    (JObj [("status", JStr "healthy");
           ("version", JStr "3.0");
           ("data_files", JList (JStr <$> data_files))]).

(** A working directory in which [data] is a regular file. *)
Definition data_is_file : world :=
  {| fs := {[ [Server.DATA_DIR] := File [] ]}; io_log := [] |}.

(** A working directory as the script expects it: the page, and a data
    directory with one CSV file and one other file. *)
Definition sample_files : gmap (list string) node :=
  <[ [Server.HTML_FILE] := File (list_byte_of_string "<html></html>") ]>
  (<[ [Server.DATA_DIR; "notes.txt"] := File (list_byte_of_string "todo") ]>
  (<[ [Server.DATA_DIR; "Locations.csv"] :=
        File (list_byte_of_string "A,B
1,2
") ]>
  (<[ [Server.DATA_DIR] := Dir ]> ∅))).

Definition sample_world : world := {| fs := sample_files; io_log := [] |}.

(** A computation whose result and whose effect on the files depend on the
    files alone, not on the calls logged before. *)
Definition fs_determined {A} (m : M A) : Prop :=
  forall w1 w2,
    fs w1 = fs w2 ->
    (m w1).1 = (m w2).1 /\ fs (m w1).2 = fs (m w2).2.

(** The responses of the server to a [GET], for the 200 of a file and for
    the two errors of the registered handlers. *)
Definition file_response (origin : option string) (mt : string)
    (c : list Byte.byte) : response :=
  {| status := 200; mimetype := mt;
     headers := [(FlaskCors.ACL_ORIGIN, FlaskCors.allow_origin origin)];
     body_of := FileBody c |}.

Definition json_error_response (origin : option string) (code : Z)
    (msg : string) : response :=
  {| status := code; mimetype := "application/json";
     headers := [(FlaskCors.ACL_ORIGIN, FlaskCors.allow_origin origin)];
     body_of := JsonBody (Server.error_body msg) |}.

(** The world after the server has answered the requests [reqs] in turn. *)
Definition serve_all (debug : bool) (reqs : list request) (w : world)
    : world :=
  fold_left (fun w' req => (Flask.serve (Server.app debug) req w').2) reqs w.

(** The warning printed for the path with components [k], shown as [shown],
    when nothing is stored there. *)
Definition missing_warning (m : gmap (list string) node) (k : list string)
    (shown : string) : list string :=
  if bool_decide (is_Some (m !! k)) then [] else [Server.warning shown].

(** * Properties *)

(** ** Strings and paths *)

Lemma ascii_eqb_false (c d : ascii) : Ascii.eqb c d = false <-> c <> d.
Proof.
  split.
  - intros H Heq. subst. rewrite Ascii.eqb_refl in H. discriminate.
  - intros H. destruct (Ascii.eqb c d) eqn:E; [|done].
    apply Ascii.eqb_eq in E. done.
Qed.

Lemma endswith_length (s suffix : string) :
  Py.endswith s suffix = true -> String.length suffix <= String.length s.
Proof.
  unfold Py.endswith. intros H. apply andb_true_iff in H as [H _].
  by apply Nat.leb_le.
Qed.

Lemma has_slash_cons (c : ascii) (s : string) :
  Py.has_slash (String c s) = false -> c <> Py.slash /\ Py.has_slash s = false.
Proof.
  simpl. intros H. apply orb_false_iff in H as [H1 H2].
  split; [by apply ascii_eqb_false | done].
Qed.

Lemma no_slash_startswith (s : string) :
  Py.has_slash s = false -> Py.startswith s "/" = false.
Proof.
  destruct s as [|c s]; [done|].
  intros [Hc _]%has_slash_cons. unfold Py.startswith. cbn [String.prefix].
  destruct (ascii_dec "/" c) as [<-|]; [by destruct Hc | done].
Qed.

Lemma split_slash_no_slash (s : string) :
  Py.has_slash s = false -> Py.split_slash s = [s].
Proof.
  induction s as [|c s IH]; [done|].
  intros [Hc Hs]%has_slash_cons. simpl.
  apply ascii_eqb_false in Hc. rewrite Hc, (IH Hs). done.
Qed.

Lemma split_slash_nonempty (s : string) : Py.split_slash s <> [].
Proof.
  induction s as [|c s IH]; [done|]. simpl.
  destruct (Ascii.eqb c Py.slash); [done|].
  by destruct (Py.split_slash s).
Qed.

Lemma split_slash_app (a s : string) :
  Py.has_slash a = false ->
  Py.split_slash (a +:+ "/" +:+ s) = a :: Py.split_slash s.
Proof.
  induction a as [|c a IH]; [done|].
  intros [Hc Ha]%has_slash_cons. simpl.
  apply ascii_eqb_false in Hc. rewrite Hc.
  change (Py.split_slash (a +:+ "/" +:+ s)) with
    (Py.split_slash (a +:+ ("/" +:+ s))) in *.
  by rewrite (IH Ha).
Qed.

Lemma after_prefix_app (p s : string) : Flask.after_prefix p (p +:+ s) = Some s.
Proof.
  induction p as [|c p IH]; [done|]. simpl. by rewrite Ascii.eqb_refl.
Qed.

Lemma valid_name_spec (n : string) :
  Os.valid_name n = true <->
  n <> EmptyString /\ n <> "." /\ n <> ".." /\ Py.has_slash n = false.
Proof.
  unfold Os.valid_name.
  rewrite !andb_true_iff, !negb_true_iff, !bool_decide_eq_false. tauto.
Qed.

(** A name ending in [.csv] is neither empty nor a dot name. *)
Lemma endswith_csv_name (n : string) :
  Py.endswith n ".csv" = true ->
  n <> EmptyString /\ n <> "." /\ n <> "..".
Proof.
  intros H%endswith_length. simpl in H.
  repeat split; intros ->; simpl in H; lia.
Qed.

Lemma segment_csv_valid (n : string) :
  Flask.is_segment n = true -> Py.endswith n ".csv" = true ->
  Os.valid_name n = true.
Proof.
  unfold Flask.is_segment. rewrite andb_true_iff, !negb_true_iff.
  intros [_ Hs] (? & ? & ?)%endswith_csv_name.
  by apply valid_name_spec.
Qed.

(** [normpath] leaves an entry name as it is. *)
Lemma normpath_valid_name (n : string) :
  Os.valid_name n = true -> Py.normpath n = n.
Proof.
  intros (Hne & Hdot & Hdd & Hs)%valid_name_spec.
  unfold Py.normpath, Py.initial_slashes.
  rewrite (bool_decide_eq_false_2 _ Hne), (no_slash_startswith _ Hs).
  rewrite (split_slash_no_slash _ Hs). simpl.
  unfold Py.normpath_step.
  rewrite (bool_decide_eq_false_2 _ Hne), (bool_decide_eq_false_2 _ Hdot).
  rewrite (bool_decide_eq_false_2 _ Hdd). simpl.
  by rewrite (bool_decide_eq_false_2 _ Hne).
Qed.

(** [safe_join] of a non-empty, slash-free directory and an entry name is the
    plain join. *)
Lemma safe_join_valid_name (n : string) :
  Os.valid_name n = true ->
  Werkzeug.safe_join Server.DATA_DIR n = Some ("data/" +:+ n).
Proof.
  intros Hv. pose proof Hv as (Hne & Hdot & Hdd & Hs)%valid_name_spec.
  unfold Werkzeug.safe_join, Py.isabs.
  rewrite (bool_decide_eq_false_2 _ Hne), (normpath_valid_name _ Hv).
  rewrite (no_slash_startswith _ Hs), (bool_decide_eq_false_2 _ Hdd). simpl.
  assert (Py.startswith n "../" = false) as ->.
  { unfold Py.startswith.
    destruct n as [|c1 [|c2 [|c3 n]]]; cbn [String.prefix]; try done;
      repeat (destruct (ascii_dec _ _) as [<-|]; try done). }
  rewrite (bool_decide_eq_false_2 _ Hne).
  unfold Py.path_join. rewrite (no_slash_startswith _ Hs). done.
Qed.

Lemma resolve_data_name (n : string) :
  Os.valid_name n = true -> Os.resolve ("data/" +:+ n) = ["data"; n].
Proof.
  intros (Hne & Hdot & Hdd & Hs)%valid_name_spec. unfold Os.resolve.
  change ("data/" +:+ n) with ("data" +:+ "/" +:+ n).
  rewrite split_slash_app by done. rewrite (split_slash_no_slash _ Hs).
  rewrite filter_cons_True by (split; done).
  rewrite filter_cons_True by (split; done). done.
Qed.

(** ** Directory listings *)

Lemma child_name_spec (d k : list string) (n : string) :
  Os.child_name d k = Some n <-> k = d ++ [n].
Proof.
  revert k. induction d as [|c d IH]; intros k.
  - destruct k as [|c' [|c'' k]]; simpl; split; congruence.
  - destruct k as [|c' k]; simpl; [split; congruence|].
    case_bool_decide as Hc.
    + subst c'. rewrite IH. split; congruence.
    + split; congruence.
Qed.

(** [children m d] lists exactly the names [n] for which [d/n] is stored. *)
Lemma children_spec (m : gmap (list string) node) (d : list string)
    (n : string) :
  n ∈ Os.children m d <-> is_Some (m !! (d ++ [n])).
Proof.
  unfold Os.children. rewrite list_elem_of_omap. split.
  - intros [[k v] [Hin Hc]]. simpl in Hc.
    apply child_name_spec in Hc as ->.
    apply elem_of_map_to_list in Hin. eauto.
  - intros [v Hv]. exists (d ++ [n], v). split.
    + by apply elem_of_map_to_list.
    + by apply child_name_spec.
Qed.

(** ** Filesystem frames *)

Lemma frame_ret {A} (a : A) : frame (ret a).
Proof. intros w. split; [done|]. exists []. by rewrite app_nil_r. Qed.

Lemma frame_raise {A} (e : exn) : frame (raise (A := A) e).
Proof. intros w. split; [done|]. exists []. by rewrite app_nil_r. Qed.

Lemma frame_step {A B} (m : M A) (k : world -> result B * world) (w : world) :
  frame m ->
  (forall w', fs (k w').2 = fs w' /\
     exists evs, io_log (k w').2 = io_log w' ++ evs /\
                 Forall (fun e => read_only e = true) evs) ->
  fs (k (m w).2).2 = fs w /\
  exists evs, io_log (k (m w).2).2 = io_log w ++ evs /\
              Forall (fun e => read_only e = true) evs.
Proof.
  intros Hm Hk. destruct (Hm w) as (Hfs & evs1 & Hlog1 & Hro1).
  destruct (Hk (m w).2) as (Hfs2 & evs2 & Hlog2 & Hro2).
  split; [congruence|]. exists (evs1 ++ evs2).
  rewrite Hlog2, Hlog1, <-app_assoc. split; [done|]. by apply Forall_app.
Qed.

Lemma frame_bind {A B} (m : M A) (k : A -> M B) :
  frame m -> (forall a, frame (k a)) -> frame (bind m k).
Proof.
  intros Hm Hk w. unfold bind.
  pose proof (frame_step m
    (fun w' => match (m w).1 with Ret a => k a w' | Raise e => (Raise e, w') end)
    w Hm) as H.
  destruct (m w) as [[a|e] w'] eqn:E; simpl in *; apply H; intros w''.
  - apply Hk.
  - apply (frame_raise (A := B) e).
Qed.

Lemma frame_catch {A} (m : M A) (h : exn -> M A) :
  frame m -> (forall e, frame (h e)) -> frame (catch m h).
Proof.
  intros Hm Hh w. unfold catch.
  pose proof (frame_step m
    (fun w' => match (m w).1 with Ret a => (Ret a, w') | Raise e => h e w' end)
    w Hm) as H.
  destruct (m w) as [[a|e] w'] eqn:E; simpl in *; apply H; intros w''.
  - apply (frame_ret a).
  - apply Hh.
Qed.

Lemma frame_try_except {A} (m : M A) (catches : exn -> bool) (h : M A) :
  frame m -> frame h -> frame (try_except m catches h).
Proof.
  intros Hm Hh. apply frame_catch; [done|].
  intros e. destruct (catches e); [done | apply frame_raise].
Qed.

Lemma frame_log {A} (ev : io_event) (f : world -> result A) :
  read_only ev = true -> frame (fun w => (f w, log_event ev w)).
Proof.
  intros Hev w. split; [done|]. exists [ev]. split; [done|].
  by apply Forall_singleton.
Qed.

Lemma frame_path_exists (p : string) : frame (Os.path_exists p).
Proof. by apply (frame_log (EvExists p)). Qed.

Lemma frame_path_isfile (p : string) : frame (Os.path_isfile p).
Proof. by apply (frame_log (EvIsFile p)). Qed.

Lemma frame_listdir (p : string) : frame (Os.listdir p).
Proof.
  intros w. unfold Os.listdir.
  destruct (Os.lookup_node (fs w) (Os.resolve p)) as [[]|];
    (split; [done|]; exists [EvListdir p]; split; [done|];
     by apply Forall_singleton).
Qed.

Lemma frame_read_file (p : string) : frame (Os.read_file p).
Proof.
  intros w. unfold Os.read_file.
  destruct (Os.lookup_node (fs w) (Os.resolve p)) as [[]|];
    (split; [done|]; exists [EvRead p]; split; [done|];
     by apply Forall_singleton).
Qed.

Create HintDb frame.
#[global] Hint Resolve frame_ret frame_raise frame_bind frame_catch
  frame_try_except frame_path_exists frame_path_isfile frame_listdir
  frame_read_file : frame.

Lemma frame_send_file (p : string) (mt : option string) :
  frame (Werkzeug.send_file p mt).
Proof. unfold Werkzeug.send_file. auto with frame. Qed.

Lemma frame_send_from_directory (d p : string) (mt : option string) :
  frame (Werkzeug.send_from_directory d p mt).
Proof.
  unfold Werkzeug.send_from_directory.
  destruct (Werkzeug.safe_join d p); [|auto with frame].
  apply frame_bind; [auto with frame|].
  intros []; [apply frame_send_file | auto with frame].
Qed.

#[global] Hint Resolve frame_send_file frame_send_from_directory : frame.

Lemma frame_index : frame Server.index.
Proof. unfold Server.index. auto with frame. Qed.

Lemma frame_serve_csv (filename : string) : frame (Server.serve_csv filename).
Proof.
  unfold Server.serve_csv.
  destruct (negb (Py.endswith filename ".csv")); auto with frame.
Qed.

Lemma frame_health : frame Server.health.
Proof.
  unfold Server.health. apply frame_bind; [|auto with frame].
  apply frame_bind; [auto with frame|]. intros []; auto with frame.
Qed.

Lemma frame_not_found (e : exn) : frame (Server.not_found e).
Proof. unfold Server.not_found. auto with frame. Qed.

Lemma frame_internal_error (e : exn) : frame (Server.internal_error e).
Proof. unfold Server.internal_error. auto with frame. Qed.

#[global] Hint Resolve frame_index frame_serve_csv frame_health
  frame_not_found frame_internal_error : frame.

(** Flask's dispatch keeps the frame of the views and handlers it is
    configured with. *)
Section FlaskFrame.
Variable a : Flask.app.
Hypothesis views_frame :
  forall path view, Flask.url_map a path = Some view -> frame view.
Hypothesis handlers_frame :
  forall code handler e,
    Flask.error_handlers a code = Some handler -> frame (handler e).

Lemma frame_static_rule (path : string) (view : M response) :
  Flask.static_rule path = Some view -> frame view.
Proof.
  unfold Flask.static_rule.
  destruct (Flask.after_prefix "/static/" path) as [f|]; [|done].
  destruct (Flask.is_subpath f); [|done].
  intros [= <-]. auto with frame.
Qed.

Lemma frame_dispatch_request (req : request) :
  frame (Flask.dispatch_request a req).
Proof.
  unfold Flask.dispatch_request.
  destruct (Flask.url_map a (req_path req)) eqn:E; [eauto|].
  destruct (Flask.static_rule (req_path req)) eqn:E'; [|auto with frame].
  eauto using frame_static_rule.
Qed.

Lemma frame_handle_user_exception (e : exn) :
  frame (Flask.handle_user_exception a e).
Proof.
  destruct e; simpl; auto with frame.
  unfold Flask.handle_http_exception.
  destruct (Flask.error_handlers a code) eqn:E; [eauto | auto with frame].
Qed.

Lemma frame_full_dispatch_request (req : request) :
  frame (Flask.full_dispatch_request a req).
Proof.
  unfold Flask.full_dispatch_request.
  auto using frame_dispatch_request, frame_handle_user_exception
    with frame.
Qed.

Lemma frame_handle_exception (req : request) (e : exn) :
  frame (Flask.handle_exception a req e).
Proof.
  unfold Flask.handle_exception. destruct (Flask.debug a); [auto with frame|].
  apply frame_bind; [|auto with frame].
  destruct (Flask.error_handlers a 500) eqn:E; [eauto | auto with frame].
Qed.

Lemma frame_wsgi_app (req : request) : frame (Flask.wsgi_app a req).
Proof.
  unfold Flask.wsgi_app.
  auto using frame_full_dispatch_request, frame_handle_exception
    with frame.
Qed.

Lemma serve_frame (req : request) (w : world) :
  fs (Flask.serve a req w).2 = fs w /\
  exists evs, io_log (Flask.serve a req w).2 = io_log w ++ evs /\
              Forall (fun e => read_only e = true) evs.
Proof.
  pose proof (frame_wsgi_app req w) as H. unfold Flask.serve.
  by destruct (Flask.wsgi_app a req w) as [[r|e] w'].
Qed.
End FlaskFrame.

Lemma route_frame (path : string) (view : M response) :
  Server.route path = Some view -> frame view.
Proof.
  unfold Server.route. repeat case_bool_decide.
  - intros [= <-]. auto with frame.
  - intros [= <-]. auto with frame.
  - destruct (Flask.after_prefix "/api/" path) as [f|]; [|done].
    destruct (Flask.is_segment f); [|done]. intros [= <-]. auto with frame.
Qed.

Lemma errorhandler_frame (code : Z) (handler : exn -> M response) (e : exn) :
  Server.errorhandler code = Some handler -> frame (handler e).
Proof.
  unfold Server.errorhandler. repeat case_bool_decide; [| |done];
    intros [= <-]; auto with frame.
Qed.

(** ** What [send_from_directory] can do *)

Lemma send_file_file (p : string) (mt : option string) (w : world)
    (c : list Byte.byte) :
  Os.lookup_node (fs w) (Os.resolve p) = Some (File c) ->
  Werkzeug.send_file p mt w =
    (Ret {| status := 200;
            mimetype := default (default "application/octet-stream"
                                         (Werkzeug.guess_type p)) mt;
            headers := [];
            body_of := FileBody c |},
     log_event (EvRead p) w).
Proof.
  intros H. unfold Werkzeug.send_file, bind, Os.read_file. by rewrite H.
Qed.

(** An unsafe name is refused before the filesystem is touched. *)
Lemma send_from_directory_unsafe (d p : string) (mt : option string)
    (w : world) :
  Werkzeug.safe_join d p = None ->
  Werkzeug.send_from_directory d p mt w = (Raise NotFound, w).
Proof. intros H. unfold Werkzeug.send_from_directory. by rewrite H. Qed.

Lemma send_from_directory_file (d p : string) (mt : option string)
    (w : world) (path_str : string) (c : list Byte.byte) :
  Werkzeug.safe_join d p = Some path_str ->
  Os.lookup_node (fs w) (Os.resolve path_str) = Some (File c) ->
  Werkzeug.send_from_directory d p mt w =
    (Ret {| status := 200;
            mimetype := default (default "application/octet-stream"
                                         (Werkzeug.guess_type path_str)) mt;
            headers := [];
            body_of := FileBody c |},
     log_event (EvRead path_str) (log_event (EvIsFile path_str) w)).
Proof.
  intros Hj Hl. unfold Werkzeug.send_from_directory. rewrite Hj.
  unfold bind at 1. unfold Os.path_isfile. rewrite Hl.
  by apply send_file_file.
Qed.

Lemma send_from_directory_missing (d p : string) (mt : option string)
    (w : world) (path_str : string) :
  Werkzeug.safe_join d p = Some path_str ->
  (forall c, Os.lookup_node (fs w) (Os.resolve path_str) <> Some (File c)) ->
  Werkzeug.send_from_directory d p mt w =
    (Raise NotFound, log_event (EvIsFile path_str) w).
Proof.
  intros Hj Hl. unfold Werkzeug.send_from_directory. rewrite Hj.
  unfold bind, Os.path_isfile.
  destruct (Os.lookup_node (fs w) (Os.resolve path_str)) as [[c|]|];
    [by destruct (Hl c) | done | done].
Qed.

(** The two outcomes of [send_from_directory]: a plain 200 response with a
    file's bytes, or werkzeug's [NotFound]. *)
Lemma send_from_directory_outcome (d p : string) (mt : option string)
    (w : world) :
  (exists r, (Werkzeug.send_from_directory d p mt w).1 = Ret r /\
             status r = 200%Z /\ headers r = [] /\
             exists c, body_of r = FileBody c) \/
  (Werkzeug.send_from_directory d p mt w).1 = Raise NotFound.
Proof.
  destruct (Werkzeug.safe_join d p) as [path_str|] eqn:Hj.
  - destruct (Os.lookup_node (fs w) (Os.resolve path_str)) as [[c|]|] eqn:Hl.
    + left. rewrite (send_from_directory_file _ _ _ _ _ c Hj Hl).
      eexists. repeat split; eauto.
    + right. rewrite (send_from_directory_missing _ _ _ _ _ Hj); [done|].
      intros c. by rewrite Hl.
    + right. rewrite (send_from_directory_missing _ _ _ _ _ Hj); [done|].
      intros c. by rewrite Hl.
  - right. by rewrite send_from_directory_unsafe.
Qed.

Lemma send_from_directory_no_FileNotFoundError (d p : string)
    (mt : option string) (w : world) :
  (Werkzeug.send_from_directory d p mt w).1 <> Raise FileNotFoundError.
Proof.
  destruct (send_from_directory_outcome d p mt w) as [(r & -> & _)| ->]; done.
Qed.

(** A handler for an exception the body never raises changes nothing. *)
Lemma try_except_unreachable {A} (m : M A) (catches : exn -> bool) (h : M A)
    (w : world) :
  (forall e, (m w).1 = Raise e -> catches e = false) ->
  try_except m catches h w = m w.
Proof.
  intros H. unfold try_except, catch.
  destruct (m w) as [[a|e] w'] eqn:E; [done|].
  simpl in H. by rewrite (H e eq_refl).
Qed.

Lemma index_eq (w : world) :
  Server.index w = Werkzeug.send_from_directory "." Server.HTML_FILE None w.
Proof.
  unfold Server.index. apply try_except_unreachable. intros e He.
  unfold is_FileNotFoundError. apply bool_decide_eq_false. intros ->.
  by apply (send_from_directory_no_FileNotFoundError _ _ _ _ He).
Qed.

Lemma serve_csv_eq (filename : string) (w : world) :
  Py.endswith filename ".csv" = true ->
  Server.serve_csv filename w =
    Werkzeug.send_from_directory Server.DATA_DIR filename (Some "text/csv") w.
Proof.
  intros Hs. unfold Server.serve_csv. rewrite Hs. simpl.
  apply try_except_unreachable. intros e He.
  unfold is_FileNotFoundError. apply bool_decide_eq_false. intros ->.
  by apply (send_from_directory_no_FileNotFoundError _ _ _ _ He).
Qed.

(** ** Routing *)

Lemma route_index : Server.route "/" = Some Server.index.
Proof. reflexivity. Qed.

Lemma route_health : Server.route "/health" = Some Server.health.
Proof. reflexivity. Qed.

Lemma route_api (filename : string) :
  Server.route ("/api/" +:+ filename) =
    if Flask.is_segment filename then Some (Server.serve_csv filename)
    else None.
Proof.
  unfold Server.route.
  rewrite bool_decide_eq_false_2 by (destruct filename; discriminate).
  rewrite bool_decide_eq_false_2 by (destruct filename; discriminate).
  by rewrite after_prefix_app.
Qed.

Lemma static_rule_api (filename : string) :
  Flask.static_rule ("/api/" +:+ filename) = None.
Proof. reflexivity. Qed.

(** ** From the outcome of a view to the response of the server *)

Section Serve.
Variables (debug : bool) (req : request) (w w' : world).

Lemma serve_ret (r : response) :
  Flask.dispatch_request (Server.app debug) req w = (Ret r, w') ->
  Flask.serve (Server.app debug) req w =
    (FlaskCors.cors_after_request req r, w').
Proof.
  intros H. unfold Flask.serve, Flask.wsgi_app, Flask.full_dispatch_request.
  unfold catch at 1. unfold bind. unfold catch. by rewrite H.
Qed.

Lemma serve_not_found :
  Flask.dispatch_request (Server.app debug) req w = (Raise NotFound, w') ->
  Flask.serve (Server.app debug) req w =
    (FlaskCors.cors_after_request req not_found_response, w').
Proof.
  intros H. unfold Flask.serve, Flask.wsgi_app, Flask.full_dispatch_request.
  unfold catch at 1. unfold bind. unfold catch. by rewrite H.
Qed.


Lemma serve_exception (e : exn) :
  (forall code, e <> HTTPException code) ->
  Flask.dispatch_request (Server.app debug) req w = (Raise e, w') ->
  Flask.serve (Server.app debug) req w =
    (if debug then Flask.traceback_page e
     else FlaskCors.cors_after_request req internal_error_response, w').
Proof.
  intros He H.
  unfold Flask.serve, Flask.wsgi_app, Flask.full_dispatch_request.
  unfold catch at 1. unfold bind. unfold catch. rewrite H.
  destruct e; try (by destruct debug). by destruct (He code).
Qed.
End Serve.

(** ** The three operations, case by case *)


Lemma dispatch_api (debug : bool) (origin : option string)
    (filename : string) :
  Flask.dispatch_request (Server.app debug)
    {| req_path := "/api/" +:+ filename; req_origin := origin |} =
  if Flask.is_segment filename then Server.serve_csv filename
  else raise NotFound.
Proof.
  unfold Flask.dispatch_request. cbn [Server.app Flask.url_map req_path].
  rewrite route_api, static_rule_api. by destruct (Flask.is_segment filename).
Qed.

Lemma serve_csv_forbidden_eq (filename : string) (w : world) :
  Py.endswith filename ".csv" = false ->
  Server.serve_csv filename w =
    (Ret (Flask.with_status
            (Flask.jsonify (Server.error_body "Only CSV files allowed")) 403),
     w).
Proof. intros H. unfold Server.serve_csv. by rewrite H. Qed.

Lemma GetDataFile_forbidden (debug : bool) (origin : option string)
    (filename : string) (w : world) :
  Flask.is_segment filename = true ->
  Py.endswith filename ".csv" = false ->
  Server.GetDataFile debug origin filename w =
    ({| status := 403; mimetype := "application/json";
        headers := [(FlaskCors.ACL_ORIGIN, FlaskCors.allow_origin origin)];
        body_of := JsonBody (Server.error_body "Only CSV files allowed") |},
     w).
Proof.
  intros Hseg Hs. unfold Server.GetDataFile.
  erewrite serve_ret; cycle 1.
  { rewrite dispatch_api, Hseg. by apply serve_csv_forbidden_eq. }
  reflexivity.
Qed.

Lemma GetDataFile_file (debug : bool) (origin : option string)
    (filename : string) (c : list Byte.byte) (w : world) :
  Os.valid_name filename = true ->
  Py.endswith filename ".csv" = true ->
  fs w !! [Server.DATA_DIR; filename] = Some (File c) ->
  (Server.GetDataFile debug origin filename w).1 =
    {| status := 200; mimetype := "text/csv";
       headers := [(FlaskCors.ACL_ORIGIN, FlaskCors.allow_origin origin)];
       body_of := FileBody c |}.
Proof.
  intros Hv Hs Hl. unfold Server.GetDataFile.
  pose proof Hv as (? & ? & ? & Hsl)%valid_name_spec.
  erewrite serve_ret; cycle 1.
  { rewrite dispatch_api. unfold Flask.is_segment.
    rewrite Hsl, bool_decide_eq_false_2 by done. simpl.
    rewrite serve_csv_eq by done.
    apply (send_from_directory_file _ _ _ _ _ c (safe_join_valid_name _ Hv)).
    by rewrite resolve_data_name. }
  reflexivity.
Qed.

Lemma GetDataFile_missing (debug : bool) (origin : option string)
    (filename : string) (w : world) :
  Py.endswith filename ".csv" = true ->
  (forall c, fs w !! [Server.DATA_DIR; filename] <> Some (File c)) ->
  (Server.GetDataFile debug origin filename w).1 =
    {| status := 404; mimetype := "application/json";
       headers := [(FlaskCors.ACL_ORIGIN, FlaskCors.allow_origin origin)];
       body_of := JsonBody (Server.error_body "Resource not found") |}.
Proof.
  intros Hs Hl. unfold Server.GetDataFile.
  destruct (Flask.is_segment filename) eqn:Hseg.
  - pose proof (segment_csv_valid _ Hseg Hs) as Hv.
    erewrite serve_not_found; cycle 1.
    { rewrite dispatch_api, Hseg, serve_csv_eq by done.
      apply (send_from_directory_missing _ _ _ _ _
               (safe_join_valid_name _ Hv)).
      by rewrite resolve_data_name. }
    reflexivity.
  - erewrite serve_not_found; cycle 1.
    { by rewrite dispatch_api, Hseg. }
    reflexivity.
Qed.

Lemma GetEntryDocument_absent (debug : bool) (origin : option string)
    (w : world) :
  (forall c, fs w !! [Server.HTML_FILE] <> Some (File c)) ->
  (Server.GetEntryDocument debug origin w).1 =
    {| status := 404; mimetype := "application/json";
       headers := [(FlaskCors.ACL_ORIGIN, FlaskCors.allow_origin origin)];
       body_of := JsonBody (Server.error_body "Resource not found") |}.
Proof.
  intros Hl. unfold Server.GetEntryDocument.
  erewrite serve_not_found; cycle 1.
  { unfold Flask.dispatch_request. cbn [Server.app Flask.url_map req_path].
    rewrite route_index, index_eq.
    by apply (send_from_directory_missing _ _ _ _ "./index.html"). }
  reflexivity.
Qed.

Lemma health_eq (w : world) :
  Server.health w =
    match fs w !! [Server.DATA_DIR] with
    | None =>
        (Ret (health_response []), log_event (EvExists Server.DATA_DIR) w)
    | Some Dir =>
        (Ret (health_response (Os.children (fs w) [Server.DATA_DIR])),
         log_event (EvListdir Server.DATA_DIR)
           (log_event (EvExists Server.DATA_DIR) w))
    | Some (File _) =>
        (Raise NotADirectoryError,
         log_event (EvListdir Server.DATA_DIR)
           (log_event (EvExists Server.DATA_DIR) w))
    end.
Proof.
  unfold Server.health, bind, Os.path_exists, Os.listdir.
  change (Os.resolve Server.DATA_DIR) with [Server.DATA_DIR].
  cbn [Os.lookup_node].
  change (fs (log_event (EvExists Server.DATA_DIR) w)) with (fs w).
  destruct (fs w !! [Server.DATA_DIR]) as [[c|]|] eqn:E.
  - rewrite bool_decide_eq_true_2 by eauto. cbn [fs log_event]. by rewrite E.
  - rewrite bool_decide_eq_true_2 by eauto. cbn [fs log_event]. by rewrite E.
  - rewrite bool_decide_eq_false_2 by (intros [? ?]; done). done.
Qed.

Lemma HealthCheck_ok (debug : bool) (origin : option string) (w : world) :
  fs w !! [Server.DATA_DIR] = None \/ fs w !! [Server.DATA_DIR] = Some Dir ->
  (Server.HealthCheck debug origin w).1 =
    {| status := 200; mimetype := "application/json";
       headers := [(FlaskCors.ACL_ORIGIN, FlaskCors.allow_origin origin)];
       body_of := body_of (health_response (data_listing (fs w))) |} /\
  fs (Server.HealthCheck debug origin w).2 = fs w.
Proof.
  intros H. unfold Server.HealthCheck.
  pose proof (health_eq w) as Hh. unfold data_listing.
  destruct H as [H|H]; rewrite H in Hh |- *.
  - erewrite serve_ret; cycle 1.
    { unfold Flask.dispatch_request. cbn [Server.app Flask.url_map req_path].
      rewrite route_health. exact Hh. }
    done.
  - erewrite serve_ret; cycle 1.
    { unfold Flask.dispatch_request. cbn [Server.app Flask.url_map req_path].
      rewrite route_health. exact Hh. }
    done.
Qed.

Lemma data_listing_spec (m : gmap (list string) node) (n : string) :
  n ∈ data_listing m <->
  m !! [Server.DATA_DIR] = Some Dir /\
  is_Some (m !! [Server.DATA_DIR; n]).
Proof.
  unfold data_listing.
  destruct (m !! [Server.DATA_DIR]) as [[c|]|] eqn:E.
  - split; [by intros ?%elem_of_nil | by intros [? _]].
  - rewrite children_spec. simpl. split; [by intros H | by intros [_ H]].
  - split; [by intros ?%elem_of_nil | by intros [? _]].
Qed.

(** ** GetDataFile *)

(** C1: for every filename that does not end with [.csv], the handler
    [serve_csv] answers 403 with the JSON body
    [{"error": "Only CSV files allowed"}]; it makes no filesystem call (the
    world, with its call log, is returned as it was) and its body is no file
    content.  For a path segment, this is also the server's response to
    [/api/<filename>]. *)
Theorem serve_csv_rejects_non_csv (filename : string) (w : world) :
  Py.endswith filename ".csv" = false ->
  Server.serve_csv filename w =
    (Ret (Flask.with_status
            (Flask.jsonify (Server.error_body "Only CSV files allowed")) 403),
     w) /\
  forall debug origin,
    Flask.is_segment filename = true ->
    let out := Server.GetDataFile debug origin filename w in
    status out.1 = 403%Z /\
    error_message out.1 = Some "Only CSV files allowed" /\
    (forall c, body_of out.1 <> FileBody c) /\
    out.2 = w.
Proof.
  intros Hs. split; [by apply serve_csv_forbidden_eq|].
  intros debug origin Hseg. cbv zeta.
  rewrite (GetDataFile_forbidden debug origin _ w Hseg Hs). by repeat split.
Qed.

Lemma serve_csv_rejects_non_csv_witness :
  Py.endswith "notes.txt" ".csv" = false /\
  (Server.serve_csv "notes.txt" data_is_file).1 =
    Ret (Flask.with_status
           (Flask.jsonify (Server.error_body "Only CSV files allowed")) 403).
Proof.
  split; [reflexivity|].
  by rewrite (proj1 (serve_csv_rejects_non_csv "notes.txt" data_is_file
                       eq_refl)).
Defined.

(** C2: in a filesystem whose entries have proper names, for every filename
    ending with [.csv] for which [data/<filename>] is a regular file, the
    response to [/api/<filename>] has status 200, content type [text/csv]
    and, as its body, exactly the bytes of that file. *)
Theorem GetDataFile_serves_file (debug : bool) (origin : option string)
    (filename : string) (c : list Byte.byte) (w : world) :
  Os.valid_fs (fs w) ->
  Py.endswith filename ".csv" = true ->
  fs w !! [Server.DATA_DIR; filename] = Some (File c) ->
  let r := (Server.GetDataFile debug origin filename w).1 in
  status r = 200%Z /\ mimetype r = "text/csv" /\ body_of r = FileBody c.
Proof.
  intros Hfs Hs Hl. cbv zeta.
  assert (Os.valid_name filename = true) as Hv.
  { apply (Hfs [Server.DATA_DIR; filename]) in Hl as Hk.
    by apply Forall_cons_1 in Hk as [_ [Hk _]%Forall_cons_1]. }
  by rewrite (GetDataFile_file debug origin _ c w Hv Hs Hl).
Qed.

(** C3: for every filename ending with [.csv], traversal names included,
    [serve_csv] does nothing but hand the unchanged filename to
    [send_from_directory] with the data directory: the outcome of the handler
    is the outcome of that call, and it is never the handler's own 403. *)
Theorem serve_csv_suffix_is_sole_check (filename : string) (w : world) :
  Py.endswith filename ".csv" = true ->
  Server.serve_csv filename w =
    Werkzeug.send_from_directory Server.DATA_DIR filename (Some "text/csv") w
  /\
  forall r, (Server.serve_csv filename w).1 = Ret r -> status r <> 403%Z.
Proof.
  intros Hs. split; [by apply serve_csv_eq|].
  intros r. rewrite serve_csv_eq by done.
  destruct (send_from_directory_outcome Server.DATA_DIR filename
              (Some "text/csv") w) as [(r' & -> & Hst & _)| ->]; [|done].
  intros [= <-]. by rewrite Hst.
Qed.

Lemma serve_csv_suffix_is_sole_check_witness :
  Py.endswith "../secret.csv" ".csv" = true /\
  Server.serve_csv "../secret.csv" data_is_file =
    Werkzeug.send_from_directory Server.DATA_DIR "../secret.csv"
      (Some "text/csv") data_is_file.
Proof.
  split; [reflexivity|].
  exact (proj1 (serve_csv_suffix_is_sole_check "../secret.csv" data_is_file
                  eq_refl)).
Defined.

(** The call that [serve_csv] makes for a traversal name ends in werkzeug's
    [safe_join], which refuses the name before any file is looked at. *)
Lemma serve_csv_traversal_refused (w : world) :
  Server.serve_csv "../secret.csv" w = (Raise NotFound, w).
Proof.
  rewrite serve_csv_eq by reflexivity.
  by apply send_from_directory_unsafe.
Qed.

(** C5: for every filename, a path segment as the rule [/api/<filename>]
    takes it, that ends with [.csv] and for which [data/<filename>] is not a
    regular file, the response to [/api/<filename>] has status 404 and a
    JSON body with an [error] message. *)
Theorem GetDataFile_missing_file (debug : bool) (origin : option string)
    (filename : string) (w : world) :
  Flask.is_segment filename = true ->
  Py.endswith filename ".csv" = true ->
  (forall c, fs w !! [Server.DATA_DIR; filename] <> Some (File c)) ->
  let r := (Server.GetDataFile debug origin filename w).1 in
  status r = 404%Z /\
  mimetype r = "application/json" /\
  error_message r = Some "Resource not found".
Proof.
  intros _ Hs Hl. cbv zeta.
  by rewrite (GetDataFile_missing debug origin _ w Hs Hl).
Qed.

(** ** GetEntryDocument *)

(** C6: when [index.html] is absent, the response to [/] has status 404 and
    a JSON body with an [error] message; it is not a 500. *)
Theorem GetEntryDocument_absent_404 (debug : bool) (origin : option string)
    (w : world) :
  fs w !! [Server.HTML_FILE] = None ->
  let r := (Server.GetEntryDocument debug origin w).1 in
  status r = 404%Z /\
  mimetype r = "application/json" /\
  is_Some (error_message r) /\
  status r <> 500%Z.
Proof.
  intros Hl. cbv zeta.
  rewrite (GetEntryDocument_absent debug origin w); [by repeat split; eauto|].
  intros c. by rewrite Hl.
Qed.

Lemma GetEntryDocument_absent_404_witness :
  status (Server.GetEntryDocument true None data_is_file).1 = 404%Z.
Proof.
  apply (GetEntryDocument_absent_404 true None data_is_file). reflexivity.
Defined.

Lemma sample_files_valid : Os.valid_fs sample_files.
Proof.
  unfold Os.valid_fs. apply (bool_decide_unpack _). vm_compute. reflexivity.
Qed.

Lemma GetDataFile_serves_file_witness :
  let r := (Server.GetDataFile true None "Locations.csv" sample_world).1 in
  status r = 200%Z /\ mimetype r = "text/csv" /\
  body_of r = FileBody (list_byte_of_string "A,B
1,2
").
Proof.
  apply (GetDataFile_serves_file true None "Locations.csv" _ sample_world).
  - unfold Os.valid_fs. apply (bool_decide_unpack _). vm_compute.
    reflexivity.
  - reflexivity.
  - reflexivity.
Defined.

Lemma GetDataFile_missing_file_witness :
  let r := (Server.GetDataFile true None "Missing.csv" sample_world).1 in
  status r = 404%Z /\ mimetype r = "application/json" /\
  error_message r = Some "Resource not found".
Proof.
  apply (GetDataFile_missing_file true None "Missing.csv" sample_world).
  - reflexivity.
  - reflexivity.
  - intros c H. vm_compute in H. discriminate.
Defined.

(** ** Responses are plain before the after-request hook *)





(** ** Cross-origin headers *)




(** ** HealthCheck *)

Lemma health_response_fields (data_files : list string) (st : Z) (mt : string)
    (hs : list (string * string)) :
  let r := {| status := st; mimetype := mt; headers := hs;
              body_of := body_of (health_response data_files) |} in
  json_field "status" r = Some (JStr "healthy") /\
  json_field "version" r = Some (JStr "3.0") /\
  json_field "data_files" r = Some (JList (JStr <$> data_files)).
Proof. by repeat split. Qed.

Lemma add_file_data_dir (n : string) (c : list Byte.byte) (w : world) :
  fs w !! [Server.DATA_DIR] = Some Dir ->
  fs (add_file [Server.DATA_DIR; n] c w) !! [Server.DATA_DIR] = Some Dir /\
  n ∈ data_listing (fs (add_file [Server.DATA_DIR; n] c w)).
Proof.
  intros H. unfold add_file. cbn [fs].
  assert (<[[Server.DATA_DIR; n]:=File c]> (fs w) !! [Server.DATA_DIR]
          = Some Dir) as Hd by (by rewrite lookup_insert_ne).
  split; [done|]. apply data_listing_spec. split; [done|].
  rewrite lookup_insert_eq. eauto.
Qed.

(** C4, amended: whenever the data path is absent or a directory,
    [/health] answers 200 and its [data_files] field is the listing of the
    data directory as it is at the call: exactly the names of its entries,
    and the empty list when the path is absent.  Nothing is cached: after a
    call, a file stored in the data directory is named by the next call. *)
Theorem HealthCheck_live_listing (debug : bool) (origin : option string)
    (w : world) :
  fs w !! [Server.DATA_DIR] = None \/ fs w !! [Server.DATA_DIR] = Some Dir ->
  let out := Server.HealthCheck debug origin w in
  status out.1 = 200%Z /\
  json_field "data_files" out.1 = Some (JList (JStr <$> data_listing (fs w))) /\
  (forall n, n ∈ data_listing (fs w) <->
             fs w !! [Server.DATA_DIR] = Some Dir /\
             is_Some (fs w !! [Server.DATA_DIR; n])) /\
  (forall n c,
     fs w !! [Server.DATA_DIR] = Some Dir ->
     let next :=
       Server.HealthCheck debug origin
         (add_file [Server.DATA_DIR; n] c out.2) in
     status next.1 = 200%Z /\
     exists l, json_field "data_files" next.1 = Some (JList (JStr <$> l)) /\
               n ∈ l).
Proof.
  intros H. cbv zeta.
  destruct (HealthCheck_ok debug origin w H) as [Hr Hfs]. rewrite Hr.
  split; [done|]. split; [done|]. split; [apply data_listing_spec|].
  intros n c Hd. rewrite <-Hfs in Hd.
  destruct (add_file_data_dir n c _ Hd) as [Hd' Hn].
  destruct (HealthCheck_ok debug origin _ (or_intror Hd')) as [Hr' _].
  rewrite Hr'. split; [done|]. eauto.
Qed.

Lemma HealthCheck_live_listing_witness :
  status (Server.HealthCheck true None sample_world).1 = 200%Z /\
  json_field "data_files" (Server.HealthCheck true None sample_world).1 =
    Some (JList (JStr <$> data_listing sample_files)).
Proof.
  assert (fs sample_world !! [Server.DATA_DIR] = None \/
          fs sample_world !! [Server.DATA_DIR] = Some Dir) as H
    by (right; reflexivity).
  destruct (HealthCheck_live_listing true None sample_world H)
    as (H1 & H2 & _).
  exact (conj H1 H2).
Defined.

(** C4 as stated fails: while [data] is a regular file, [os.path.exists]
    holds, [os.listdir] raises [NotADirectoryError], and [/health] answers
    500, from the registered handler and from the debugger alike. *)
Lemma HealthCheck_500_when_data_is_file :
  status (Server.HealthCheck false None data_is_file).1 = 500%Z /\
  status (Server.HealthCheck true None data_is_file).1 = 500%Z /\
  status (Server.HealthCheck true None data_is_file).1 <> 200%Z /\
  (Server.health data_is_file).1 = Raise NotADirectoryError.
Proof. by vm_compute. Qed.

(** A name that does not end in [.csv] is never served by [/api/]. *)
Lemma GetDataFile_non_csv_not_served (debug : bool) (origin : option string)
    (n : string) (w : world) :
  Py.endswith n ".csv" = false ->
  status (Server.GetDataFile debug origin n w).1 <> 200%Z.
Proof.
  intros Hs. destruct (Flask.is_segment n) eqn:Hseg.
  - by rewrite (GetDataFile_forbidden debug origin n w Hseg Hs).
  - unfold Server.GetDataFile. erewrite serve_not_found; cycle 1.
    { by rewrite dispatch_api, Hseg. }
    done.
Qed.

(** C10, amended: whenever the data path is absent or a directory, the
    response to [/health] has [status] equal to ["healthy"], [version] equal
    to ["3.0"], and a [data_files] list that names every entry of the data
    directory whatever its suffix, also the entries not ending in [.csv],
    which [/api/] never serves. *)
Theorem HealthCheck_fields (debug : bool) (origin : option string)
    (w : world) :
  fs w !! [Server.DATA_DIR] = None \/ fs w !! [Server.DATA_DIR] = Some Dir ->
  let r := (Server.HealthCheck debug origin w).1 in
  json_field "status" r = Some (JStr "healthy") /\
  json_field "version" r = Some (JStr "3.0") /\
  exists l,
    json_field "data_files" r = Some (JList (JStr <$> l)) /\
    (forall n, fs w !! [Server.DATA_DIR] = Some Dir ->
               is_Some (fs w !! [Server.DATA_DIR; n]) -> n ∈ l) /\
    (forall n, n ∈ l -> Py.endswith n ".csv" = false ->
               status (Server.GetDataFile debug origin n w).1 <> 200%Z).
Proof.
  intros H. cbv zeta.
  destruct (HealthCheck_ok debug origin w H) as [-> _].
  split; [done|]. split; [done|].
  exists (data_listing (fs w)). split; [done|]. split.
  - intros n Hd Hn. by apply data_listing_spec.
  - intros n _ Hs. by apply GetDataFile_non_csv_not_served.
Qed.

Lemma HealthCheck_fields_witness :
  let r := (Server.HealthCheck true None sample_world).1 in
  json_field "status" r = Some (JStr "healthy") /\
  json_field "version" r = Some (JStr "3.0") /\
  exists l,
    json_field "data_files" r = Some (JList (JStr <$> l)) /\
    (forall n, fs sample_world !! [Server.DATA_DIR] = Some Dir ->
               is_Some (fs sample_world !! [Server.DATA_DIR; n]) -> n ∈ l) /\
    (forall n, n ∈ l -> Py.endswith n ".csv" = false ->
               status (Server.GetDataFile true None n sample_world).1
               <> 200%Z).
Proof.
  apply (HealthCheck_fields true None sample_world). right. reflexivity.
Defined.

(** The listing of the sample directory names the file that is no CSV. *)
Lemma sample_listing_unfiltered : "notes.txt" ∈ data_listing sample_files.
Proof. apply data_listing_spec. split; [reflexivity|]. by eexists. Qed.

(** C10 as stated fails: while [data] is a regular file the response to
    [/health] is the 500 error, which has no [status] and no [version]
    field. *)
Lemma HealthCheck_no_fields_when_data_is_file :
  let r := (Server.HealthCheck false None data_is_file).1 in
  json_field "status" r = None /\
  json_field "version" r = None /\
  json_field "status" r <> Some (JStr "healthy").
Proof. by vm_compute. Qed.

(** ** The filesystem is only read *)

Lemma startup_fs (w : world) :
  fs (Server.startup w).2 =
    match fs w !! [Server.DATA_DIR] with
    | Some _ => fs w
    | None => <[[Server.DATA_DIR] := Dir]> (fs w)
    end.
Proof.
  unfold Server.startup, bind, Os.path_exists.
  change (Os.resolve Server.DATA_DIR) with [Server.DATA_DIR].
  cbn [Os.lookup_node].
  destruct (fs w !! [Server.DATA_DIR]) as [x|] eqn:E.
  - rewrite bool_decide_eq_true_2 by eauto. done.
  - rewrite bool_decide_eq_false_2 by (intros [? ?]; done).
    cbn [negb]. unfold Os.makedirs.
    change (Os.resolve Server.DATA_DIR) with [Server.DATA_DIR].
    cbn [Os.lookup_node fs log_event Os.mkdirs app]. by rewrite !E.
Qed.

Lemma frame_check_required_files : frame Server.check_required_files.
Proof.
  unfold Server.check_required_files, Server.required_csvs.
  cbn [fold_right]. auto 10 with frame.
Qed.

(** C8: handling a request never changes the filesystem.  For every request
    and either debug setting, the files after the response are the files
    before it and every filesystem call made on the way is a read-only one;
    the same holds for each view and each error handler on its own, and for
    the checks of the [__main__] block.  The one write of the program is at
    import: [startup] creates the data directory when the path is absent and
    changes nothing otherwise. *)
Theorem request_handling_is_read_only :
  (forall debug req w,
     fs (Flask.serve (Server.app debug) req w).2 = fs w /\
     exists evs,
       io_log (Flask.serve (Server.app debug) req w).2 = io_log w ++ evs /\
       Forall (fun e => read_only e = true) evs) /\
  (frame Server.index /\
   (forall filename, frame (Server.serve_csv filename)) /\
   frame Server.health /\
   (forall e, frame (Server.not_found e)) /\
   (forall e, frame (Server.internal_error e))) /\
  frame Server.check_required_files /\
  (forall w,
     fs (Server.startup w).2 =
       match fs w !! [Server.DATA_DIR] with
       | Some _ => fs w
       | None => <[[Server.DATA_DIR] := Dir]> (fs w)
       end).
Proof.
  split; [|split; [|split]].
  - intros debug req w. apply serve_frame.
    + intros path view. apply route_frame.
    + intros code handler e. apply errorhandler_frame.
  - auto 10 with frame.
  - apply frame_check_required_files.
  - apply startup_fs.
Qed.

(** At import in an empty directory, [data] is created. *)
Lemma startup_creates_data_dir :
  fs (Server.startup {| fs := ∅; io_log := [] |}).2 !! [Server.DATA_DIR]
    = Some Dir.
Proof. rewrite startup_fs. reflexivity. Qed.

(** ** The [except FileNotFoundError] branches *)

Lemma string_length_app (s t : string) :
  String.length (s +:+ t) = String.length s + String.length t.
Proof. induction s as [|c s IH]; simpl; [done | by rewrite IH]. Qed.

(** The message of the 404 handler is not the per-file message of
    [serve_csv] for a name ending in [.csv]. *)
Lemma csv_message_distinct (filename : string) :
  Py.endswith filename ".csv" = true ->
  filename +:+ " not found" <> "Resource not found".
Proof.
  intros Hs Heq.
  assert (String.length filename = 8) as Hlen.
  { apply (f_equal String.length) in Heq.
    rewrite string_length_app in Heq. simpl in Heq. lia. }
  do 9 (destruct filename as [|? filename]; simpl in Hlen; try lia).
  simpl in Heq. injection Heq as -> -> -> -> -> -> -> ->.
  vm_compute in Hs. discriminate.
Qed.

(** C9: [send_from_directory] never raises [FileNotFoundError], so the
    [except FileNotFoundError] branches of [index] and [serve_csv] never run:
    each handler is its [send_from_directory] call.  When the requested file
    is absent the call raises werkzeug's [NotFound], and the 404 response is
    the one of the registered 404 handler, with body
    [{"error": "Resource not found"}], not the message of the route; for
    [/api/<filename>] this is said of the path segments that the rule
    takes. *)
Theorem except_FileNotFoundError_unreachable :
  (forall d p mt w,
     (Werkzeug.send_from_directory d p mt w).1 <> Raise FileNotFoundError) /\
  (forall w,
     Server.index w =
       Werkzeug.send_from_directory "." Server.HTML_FILE None w) /\
  (forall filename w,
     Py.endswith filename ".csv" = true ->
     Server.serve_csv filename w =
       Werkzeug.send_from_directory Server.DATA_DIR filename
         (Some "text/csv") w) /\
  (forall debug origin w,
     (forall c, fs w !! [Server.HTML_FILE] <> Some (File c)) ->
     (Server.index w).1 = Raise NotFound /\
     let r := (Server.GetEntryDocument debug origin w).1 in
     status r = 404%Z /\
     body_of r = JsonBody (Server.error_body "Resource not found") /\
     body_of r <> JsonBody (Server.error_body "index.html not found")) /\
  (forall debug origin filename w,
     Flask.is_segment filename = true ->
     Py.endswith filename ".csv" = true ->
     (forall c, fs w !! [Server.DATA_DIR; filename] <> Some (File c)) ->
     (Server.serve_csv filename w).1 = Raise NotFound /\
     let r := (Server.GetDataFile debug origin filename w).1 in
     status r = 404%Z /\
     body_of r = JsonBody (Server.error_body "Resource not found") /\
     body_of r <>
       JsonBody (Server.error_body (filename +:+ " not found"))).
Proof.
  split; [apply send_from_directory_no_FileNotFoundError|].
  split; [apply index_eq|]. split; [apply serve_csv_eq|]. split.
  - intros debug origin w Hl. split.
    + rewrite index_eq.
      by rewrite (send_from_directory_missing _ _ _ _ "./index.html").
    + cbv zeta. by rewrite (GetEntryDocument_absent debug origin w Hl).
  - intros debug origin filename w Hseg Hs Hl. split.
    + pose proof (segment_csv_valid _ Hseg Hs) as Hv.
      rewrite serve_csv_eq by done.
      rewrite (send_from_directory_missing _ _ _ _ _
                 (safe_join_valid_name _ Hv)); [done|].
      by rewrite resolve_data_name.
    + cbv zeta. rewrite (GetDataFile_missing debug origin _ w Hs Hl). simpl.
      split; [done|]. split; [done|].
      intros [= Heq]. by apply (csv_message_distinct filename Hs).
Qed.

Lemma except_FileNotFoundError_unreachable_witness :
  Server.serve_csv "Missing.csv" sample_world =
    Werkzeug.send_from_directory Server.DATA_DIR "Missing.csv"
      (Some "text/csv") sample_world /\
  body_of (Server.GetDataFile true None "Missing.csv" sample_world).1 =
    JsonBody (Server.error_body "Resource not found").
Proof.
  destruct except_FileNotFoundError_unreachable as (_ & _ & H3 & _ & H5).
  split.
  - apply H3. reflexivity.
  - apply (H5 true None "Missing.csv" sample_world).
    + reflexivity.
    + reflexivity.
    + intros c H. vm_compute in H. discriminate.
Defined.

(** ** The model on concrete inputs *)

Example endswith_csv : Py.endswith "Locations.csv" ".csv" = true.
Proof. reflexivity. Qed.

Example endswith_txt : Py.endswith "notes.txt" ".csv" = false.
Proof. reflexivity. Qed.

Example endswith_short : Py.endswith "csv" ".csv" = false.
Proof. reflexivity. Qed.

Example split_slash_ex :
  Py.split_slash "a//b/" = ["a"; EmptyString; "b"; EmptyString].
Proof. reflexivity. Qed.

Example normpath_dotdot : Py.normpath "a/./b/../../../x.csv" = "../x.csv".
Proof. reflexivity. Qed.

Example normpath_abs : Py.normpath "//etc/../x" = "//x".
Proof. reflexivity. Qed.

Example normpath_cancel : Py.normpath "sub/.." = ".".
Proof. reflexivity. Qed.

Example safe_join_inside :
  Werkzeug.safe_join "data" "sub/../Tracks.csv" = Some "data/Tracks.csv".
Proof. reflexivity. Qed.

Example safe_join_escape : Werkzeug.safe_join "data" "../secret.csv" = None.
Proof. reflexivity. Qed.

Example route_api_segment_only : Server.route "/api/a/b.csv" = None.
Proof. reflexivity. Qed.

Example sample_csv_served :
  (Server.GetDataFile true (Some "http://a") "Locations.csv" sample_world).1 =
    {| status := 200; mimetype := "text/csv";
       headers := [(FlaskCors.ACL_ORIGIN, "http://a")];
       body_of := FileBody (list_byte_of_string "A,B
1,2
") |}.
Proof. by vm_compute. Qed.

Example sample_health :
  json_field "data_files" (Server.HealthCheck true None sample_world).1 =
    Some (JList [JStr "Locations.csv"; JStr "notes.txt"]).
Proof. by vm_compute. Qed.

Example sample_index_served :
  status (Server.GetEntryDocument true None sample_world).1 = 200%Z /\
  mimetype (Server.GetEntryDocument true None sample_world).1 = "text/html".
Proof. by vm_compute. Qed.

Example health_500_has_cors_without_debug :
  (Server.HealthCheck false None data_is_file).1 =
    FlaskCors.cors_after_request
      {| req_path := "/health"; req_origin := None |}
      internal_error_response.
Proof. by vm_compute. Qed.

(** * Further properties of server.py *)

(** ** The entry document *)

Lemma GetEntryDocument_file (debug : bool) (origin : option string)
    (c : list Byte.byte) (w : world) :
  fs w !! [Server.HTML_FILE] = Some (File c) ->
  Server.GetEntryDocument debug origin w =
    (file_response origin "text/html" c,
     log_event (EvRead "./index.html")
       (log_event (EvIsFile "./index.html") w)).
Proof.
  intros Hl. unfold Server.GetEntryDocument.
  erewrite serve_ret; cycle 1.
  { unfold Flask.dispatch_request. cbn [Server.app Flask.url_map req_path].
    rewrite route_index, index_eq.
    by apply (send_from_directory_file _ _ _ _ "./index.html" c). }
  reflexivity.
Qed.

(** X1: when [index.html] is a regular file, [/] answers 200 with content
    type [text/html] and exactly the bytes of that file, after one [isfile]
    test and one read of it. *)
Theorem GetEntryDocument_serves_page (debug : bool) (origin : option string)
    (c : list Byte.byte) (w : world) :
  fs w !! [Server.HTML_FILE] = Some (File c) ->
  let out := Server.GetEntryDocument debug origin w in
  status out.1 = 200%Z /\
  mimetype out.1 = "text/html" /\
  body_of out.1 = FileBody c /\
  io_log out.2 =
    io_log w ++ [EvIsFile "./index.html"; EvRead "./index.html"].
Proof.
  intros Hl. cbv zeta. rewrite (GetEntryDocument_file debug origin c w Hl).
  simpl. by rewrite <-app_assoc.
Qed.

Lemma GetEntryDocument_serves_page_witness :
  let out := Server.GetEntryDocument true None sample_world in
  status out.1 = 200%Z /\
  mimetype out.1 = "text/html" /\
  body_of out.1 = FileBody (list_byte_of_string "<html></html>") /\
  io_log out.2 =
    io_log sample_world ++ [EvIsFile "./index.html"; EvRead "./index.html"].
Proof.
  apply (GetEntryDocument_serves_page true None _ sample_world). reflexivity.
Defined.

(** X2: [/] has two answers only.  It is 200 exactly when [index.html] is a
    regular file; in every other state, a directory of that name included,
    it is the 404 of the registered handler. *)
Theorem GetEntryDocument_200_or_404 (debug : bool) (origin : option string)
    (w : world) :
  let r := (Server.GetEntryDocument debug origin w).1 in
  (status r = 200%Z <-> exists c, fs w !! [Server.HTML_FILE] = Some (File c))
  /\
  (status r <> 200%Z ->
   r = json_error_response origin 404 "Resource not found").
Proof.
  cbv zeta.
  destruct (fs w !! [Server.HTML_FILE]) as [[c|]|] eqn:E.
  - rewrite (GetEntryDocument_file debug origin c w E). simpl.
    split; [split; eauto|done].
  - rewrite (GetEntryDocument_absent debug origin w)
      by (intros c; by rewrite E).
    split; [split; [done|by intros [c ?]]|done].
  - rewrite (GetEntryDocument_absent debug origin w)
      by (intros c; by rewrite E).
    split; [split; [done|by intros [c ?]]|done].
Qed.

(** ** The data files *)

Lemma GetDataFile_unrouted (debug : bool) (origin : option string)
    (filename : string) (w : world) :
  Flask.is_segment filename = false ->
  Server.GetDataFile debug origin filename w =
    (json_error_response origin 404 "Resource not found", w).
Proof.
  intros Hseg. unfold Server.GetDataFile. erewrite serve_not_found; cycle 1.
  { by rewrite dispatch_api, Hseg. }
  reflexivity.
Qed.

(** The decision table of [/api/<filename>]. *)
Lemma GetDataFile_cases (debug : bool) (origin : option string)
    (filename : string) (w : world) :
  (Server.GetDataFile debug origin filename w).1 =
    if Flask.is_segment filename then
      if Py.endswith filename ".csv" then
        match fs w !! [Server.DATA_DIR; filename] with
        | Some (File c) => file_response origin "text/csv" c
        | _ => json_error_response origin 404 "Resource not found"
        end
      else json_error_response origin 403 "Only CSV files allowed"
    else json_error_response origin 404 "Resource not found".
Proof.
  destruct (Flask.is_segment filename) eqn:Hseg;
    [|by rewrite GetDataFile_unrouted].
  destruct (Py.endswith filename ".csv") eqn:Hs;
    [|by rewrite GetDataFile_forbidden].
  pose proof (segment_csv_valid _ Hseg Hs) as Hv.
  destruct (fs w !! [Server.DATA_DIR; filename]) as [[c|]|] eqn:E.
  - by rewrite (GetDataFile_file debug origin _ c w Hv Hs E).
  - rewrite (GetDataFile_missing debug origin _ w Hs); [done|].
    intros c. by rewrite E.
  - rewrite (GetDataFile_missing debug origin _ w Hs); [done|].
    intros c. by rewrite E.
Qed.

(** X3: whatever [/api/<filename>] answers with status 200 is a CSV of the
    data directory: the name is a single path segment ending in [.csv], the
    entry of that name in [data] is a regular file, and the body is its
    content. *)
Theorem GetDataFile_200_is_data_file (debug : bool) (origin : option string)
    (filename : string) (w : world) :
  status (Server.GetDataFile debug origin filename w).1 = 200%Z ->
  Flask.is_segment filename = true /\
  Py.endswith filename ".csv" = true /\
  exists c,
    fs w !! [Server.DATA_DIR; filename] = Some (File c) /\
    body_of (Server.GetDataFile debug origin filename w).1 = FileBody c.
Proof.
  rewrite GetDataFile_cases.
  destruct (Flask.is_segment filename); [|done].
  destruct (Py.endswith filename ".csv"); [|done].
  destruct (fs w !! [Server.DATA_DIR; filename]) as [[c|]|]; [|done|done].
  intros _. eauto.
Qed.

Lemma GetDataFile_200_is_data_file_witness :
  Flask.is_segment "Locations.csv" = true /\
  Py.endswith "Locations.csv" ".csv" = true /\
  exists c,
    fs sample_world !! [Server.DATA_DIR; "Locations.csv"] = Some (File c) /\
    body_of (Server.GetDataFile false None "Locations.csv" sample_world).1
      = FileBody c.
Proof.
  apply (GetDataFile_200_is_data_file false None "Locations.csv" sample_world).
  by vm_compute.
Defined.

(** X4: for a path segment, as the rule takes it, [/api/<filename>] answers
    200, 403 or 404 and never 500, and the files play no part in a 403: the
    answer is 403 exactly when the name does not end in [.csv]. *)
Theorem GetDataFile_status (debug : bool) (origin : option string)
    (filename : string) (w : world) :
  Flask.is_segment filename = true ->
  let r := (Server.GetDataFile debug origin filename w).1 in
  (status r = 200%Z \/ status r = 403%Z \/ status r = 404%Z) /\
  (status r = 403%Z <-> Py.endswith filename ".csv" = false).
Proof.
  intros Hseg. cbv zeta. rewrite GetDataFile_cases, Hseg.
  destruct (Py.endswith filename ".csv");
    try destruct (fs w !! [Server.DATA_DIR; filename]) as [[c|]|];
    simpl; split; auto; split; done.
Qed.

(** X5: a name with a slash in it, in a path without an empty segment,
    never reaches [serve_csv]: the rule [/api/<filename>] takes one path
    segment, so the request is a 404 of the registered handler, no
    filesystem call is made, and a file that exists in a subdirectory of
    [data] is not served. *)
Theorem GetDataFile_nested_name_404 (debug : bool) (origin : option string)
    (filename : string) (w : world) :
  Py.has_slash filename = true ->
  Flask.plain_path ("/api/" +:+ filename) = true ->
  Server.GetDataFile debug origin filename w =
    (json_error_response origin 404 "Resource not found", w).
Proof.
  intros Hs _. apply GetDataFile_unrouted. unfold Flask.is_segment.
  rewrite Hs. by rewrite andb_false_r.
Qed.

Lemma GetDataFile_nested_name_404_witness :
  Server.GetDataFile true None "sub/x.csv"
    (add_file [Server.DATA_DIR; "sub"; "x.csv"] [] sample_world) =
  (json_error_response None 404 "Resource not found",
   add_file [Server.DATA_DIR; "sub"; "x.csv"] [] sample_world).
Proof.
  apply (GetDataFile_nested_name_404 true None "sub/x.csv"); reflexivity.
Defined.

Lemma GetEntryDocument_200_or_404_witness :
  let r := (Server.GetEntryDocument true None data_is_file).1 in
  status r <> 200%Z /\ r = json_error_response None 404 "Resource not found".
Proof.
  pose proof (GetEntryDocument_200_or_404 true None data_is_file) as [_ H].
  assert (status (Server.GetEntryDocument true None data_is_file).1 <> 200%Z)
    as Hne by (by vm_compute).
  exact (conj Hne (H Hne)).
Defined.

Lemma GetDataFile_status_witness :
  status (Server.GetDataFile true None "notes.txt" sample_world).1 = 403%Z.
Proof.
  apply (GetDataFile_status true None "notes.txt" sample_world);
    reflexivity.
Defined.

(** ** What [serve_csv] can hand out *)

Lemma normpath_nonempty (path : string) : Py.normpath path <> EmptyString.
Proof.
  unfold Py.normpath. case_bool_decide; [done|]. cbv zeta.
  by case_bool_decide.
Qed.

Lemma safe_join_data (filename path_str : string) :
  filename <> EmptyString ->
  Werkzeug.safe_join Server.DATA_DIR filename = Some path_str ->
  Os.resolve path_str =
    Server.DATA_DIR :: Os.resolve (Py.normpath filename).
Proof.
  intros Hne. unfold Werkzeug.safe_join.
  rewrite (bool_decide_eq_false_2 _ Hne).
  change (bool_decide (Server.DATA_DIR = EmptyString)) with false.
  cbv iota. unfold Py.isabs.
  destruct (Py.startswith (Py.normpath filename) "/") eqn:Hs; [done|].
  destruct (bool_decide (Py.normpath filename = "..")); [done|].
  destruct (Py.startswith (Py.normpath filename) "../"); [done|].
  simpl. rewrite (bool_decide_eq_false_2 _ (normpath_nonempty filename)).
  intros [= <-]. unfold Py.path_join. rewrite Hs.
  change (bool_decide (Server.DATA_DIR = EmptyString)
          || Py.endswith Server.DATA_DIR "/") with false.
  cbv iota. unfold Os.resolve.
  rewrite split_slash_app by reflexivity.
  by rewrite filter_cons_True by (split; done).
Qed.

(** X6: [serve_csv] hands out nothing from outside the data directory, for
    any string it is called with, traversal attempts included: when its
    response carries file bytes, the name ends in [.csv] and the bytes are
    those of the file stored below [data] at the normalised name, a path
    of proper entry names that does not climb out through [".."]. *)
Theorem serve_csv_stays_in_data_dir (filename : string) (w w' : world)
    (r : response) (c : list Byte.byte) :
  Server.serve_csv filename w = (Ret r, w') ->
  body_of r = FileBody c ->
  Py.endswith filename ".csv" = true /\
  fs w !! (Server.DATA_DIR :: Os.resolve (Py.normpath filename))
    = Some (File c) /\
  (Os.valid_fs (fs w) ->
   Forall (fun n => Os.valid_name n = true)
     (Os.resolve (Py.normpath filename))).
Proof.
  intros Hr Hb.
  destruct (Py.endswith filename ".csv") eqn:Hs.
  2: { rewrite serve_csv_forbidden_eq in Hr by done.
       injection Hr as <- _. done. }
  split; [done|].
  cut (fs w !! (Server.DATA_DIR :: Os.resolve (Py.normpath filename))
       = Some (File c)).
  { intros Hl. split; [done|]. intros Hfs.
    apply Hfs in Hl. by apply Forall_cons_1 in Hl as [_ Hl]. }
  rewrite serve_csv_eq in Hr by done.
  pose proof (endswith_csv_name _ Hs) as (Hne & _ & _).
  destruct (Werkzeug.safe_join Server.DATA_DIR filename) as [p|] eqn:Hj.
  2: { by rewrite send_from_directory_unsafe in Hr. }
  pose proof (safe_join_data _ _ Hne Hj) as Hp.
  destruct (Os.lookup_node (fs w) (Os.resolve p)) as [[c0|]|] eqn:Hl.
  - rewrite (send_from_directory_file _ _ _ _ _ c0 Hj Hl) in Hr.
    injection Hr as <- _. simpl in Hb. injection Hb as ->.
    by rewrite Hp in Hl.
  - rewrite (send_from_directory_missing _ _ _ _ _ Hj) in Hr; [done|].
    intros ?. by rewrite Hl.
  - rewrite (send_from_directory_missing _ _ _ _ _ Hj) in Hr; [done|].
    intros ?. by rewrite Hl.
Qed.

Lemma serve_csv_stays_in_data_dir_witness :
  Py.endswith "./sub/../Locations.csv" ".csv" = true /\
  fs sample_world
    !! (Server.DATA_DIR :: Os.resolve (Py.normpath "./sub/../Locations.csv"))
    = Some (File (list_byte_of_string "A,B
1,2
")) /\
  (Os.valid_fs (fs sample_world) ->
   Forall (fun n => Os.valid_name n = true)
     (Os.resolve (Py.normpath "./sub/../Locations.csv"))).
Proof.
  eapply (serve_csv_stays_in_data_dir "./sub/../Locations.csv" sample_world).
  - vm_compute. reflexivity.
  - reflexivity.
Defined.

(** ** The registered error handlers *)



Lemma HealthCheck_data_file (debug : bool) (origin : option string)
    (c : list Byte.byte) (w : world) :
  fs w !! [Server.DATA_DIR] = Some (File c) ->
  (Server.HealthCheck debug origin w).1 =
    if debug then Flask.traceback_page NotADirectoryError
    else json_error_response origin 500 "Internal server error".
Proof.
  intros H. unfold Server.HealthCheck.
  pose proof (health_eq w) as Hh. rewrite H in Hh.
  erewrite (serve_exception _ _ _ _ NotADirectoryError); cycle 1.
  { done. }
  { unfold Flask.dispatch_request. cbn [Server.app Flask.url_map req_path].
    rewrite route_health. exact Hh. }
  by destruct debug.
Qed.

(** X8: [internal_error] answers the one fault a view of this server can
    have.  Whenever [data] is a regular file, whatever it holds, [/health]
    fails in [os.listdir]; with exceptions not propagating the response is
    500 with [{"error": "Internal server error"}] and the allow-origin
    header, and in debug mode it is the debugger's page for
    [NotADirectoryError]. *)
Theorem health_fault_is_internal_error (debug : bool)
    (origin : option string) (c : list Byte.byte) (w : world) :
  fs w !! [Server.DATA_DIR] = Some (File c) ->
  (Server.health w).1 = Raise NotADirectoryError /\
  (Server.HealthCheck false origin w).1 =
    json_error_response origin 500 "Internal server error" /\
  (Server.HealthCheck true origin w).1 =
    Flask.traceback_page NotADirectoryError.
Proof.
  intros H. split; [by rewrite health_eq, H|].
  split; by rewrite (HealthCheck_data_file _ origin c w H).
Qed.

Lemma health_fault_is_internal_error_witness :
  (Server.health data_is_file).1 = Raise NotADirectoryError /\
  (Server.HealthCheck false None data_is_file).1 =
    json_error_response None 500 "Internal server error" /\
  (Server.HealthCheck true None data_is_file).1 =
    Flask.traceback_page NotADirectoryError.
Proof.
  apply (health_fault_is_internal_error true None [] data_is_file).
  reflexivity.
Defined.

Lemma HealthCheck_status (debug : bool) (origin : option string) (w : world) :
  status (Server.HealthCheck debug origin w).1 = 200%Z <->
  forall c, fs w !! [Server.DATA_DIR] <> Some (File c).
Proof.
  destruct (fs w !! [Server.DATA_DIR]) as [[c|]|] eqn:E.
  - rewrite (HealthCheck_data_file debug origin c w E).
    destruct debug; simpl; (split; [done | intros H; by destruct (H c)]).
  - destruct (HealthCheck_ok debug origin w (or_intror E)) as [-> _].
    simpl. split; done.
  - destruct (HealthCheck_ok debug origin w (or_introl E)) as [-> _].
    simpl. split; done.
Qed.

(** X9: [/health] answers 200 exactly when the data path is not a regular
    file, and 500 otherwise: the guard [os.path.exists] covers the missing
    directory and nothing else. *)
Theorem HealthCheck_200_iff (debug : bool) (origin : option string)
    (w : world) :
  let r := (Server.HealthCheck debug origin w).1 in
  (status r = 200%Z <->
   forall c, fs w !! [Server.DATA_DIR] <> Some (File c)) /\
  (status r = 200%Z \/ status r = 500%Z).
Proof.
  cbv zeta. destruct (fs w !! [Server.DATA_DIR]) as [[c|]|] eqn:E.
  - rewrite (HealthCheck_data_file debug origin c w E).
    destruct debug; simpl;
      (split; [split; [done | intros H; by destruct (H c)] | by right]).
  - destruct (HealthCheck_ok debug origin w (or_intror E)) as [-> _].
    simpl. split; [split; done | by left].
  - destruct (HealthCheck_ok debug origin w (or_introl E)) as [-> _].
    simpl. split; [split; done | by left].
Qed.

Lemma HealthCheck_200_iff_witness :
  status (Server.HealthCheck true None sample_world).1 = 200%Z.
Proof.
  apply (HealthCheck_200_iff true None sample_world).
  intros c H. vm_compute in H. discriminate.
Defined.

(** ** Start-up *)

Lemma startup_eq (w : world) :
  Server.startup w =
    match fs w !! [Server.DATA_DIR] with
    | Some _ => (Ret tt, log_event (EvExists Server.DATA_DIR) w)
    | None =>
        (Ret tt,
         {| fs := <[[Server.DATA_DIR] := Dir]> (fs w);
            io_log := io_log w ++ [EvExists Server.DATA_DIR] ++
                                  [EvMakedirs Server.DATA_DIR] |})
    end.
Proof.
  unfold Server.startup, bind, Os.path_exists.
  change (Os.resolve Server.DATA_DIR) with [Server.DATA_DIR].
  cbn [Os.lookup_node].
  destruct (fs w !! [Server.DATA_DIR]) as [x|] eqn:E.
  - rewrite bool_decide_eq_true_2 by eauto. done.
  - rewrite bool_decide_eq_false_2 by (intros [? ?]; done).
    cbn [negb]. unfold Os.makedirs.
    change (Os.resolve Server.DATA_DIR) with [Server.DATA_DIR].
    cbn [Os.lookup_node fs log_event Os.mkdirs app io_log]. rewrite !E.
    by rewrite <-app_assoc.
Qed.

Lemma startup_data_present (w : world) :
  is_Some (fs (Server.startup w).2 !! [Server.DATA_DIR]).
Proof.
  rewrite startup_fs.
  destruct (fs w !! [Server.DATA_DIR]) as [x|] eqn:E; [by rewrite E|].
  rewrite lookup_insert_eq. eauto.
Qed.

(** X11: running the start-up block again changes nothing: the files after
    a second run are the files after the first, and the second run makes the
    [exists] test only, no [os.makedirs] call. *)
Theorem startup_idempotent (w : world) :
  let w1 := (Server.startup w).2 in
  fs (Server.startup w1).2 = fs w1 /\
  io_log (Server.startup w1).2 = io_log w1 ++ [EvExists Server.DATA_DIR].
Proof.
  cbv zeta. destruct (startup_data_present w) as [x Hx].
  rewrite (startup_eq (Server.startup w).2), Hx. done.
Qed.

(** X12: the start-up block does not repair a data path that is a regular
    file.  After start-up [/health] answers 200 exactly when the data path
    was not a regular file before it; when the path was absent, the listing
    is that of the directory just made. *)
Theorem health_after_startup (debug : bool) (origin : option string)
    (w : world) :
  let w1 := (Server.startup w).2 in
  (status (Server.HealthCheck debug origin w1).1 = 200%Z <->
   forall c, fs w !! [Server.DATA_DIR] <> Some (File c)) /\
  (fs w !! [Server.DATA_DIR] = None ->
   fs w1 !! [Server.DATA_DIR] = Some Dir /\
   json_field "data_files" (Server.HealthCheck debug origin w1).1 =
     Some (JList (JStr <$> data_listing (fs w1)))).
Proof.
  cbv zeta. split.
  - rewrite (HealthCheck_status debug origin _).
    rewrite startup_fs.
    destruct (fs w !! [Server.DATA_DIR]) as [x|] eqn:E.
    + by rewrite E.
    + rewrite lookup_insert_eq. split; done.
  - intros E.
    assert (fs (Server.startup w).2 !! [Server.DATA_DIR] = Some Dir) as Hd.
    { rewrite startup_fs, E. by rewrite lookup_insert_eq. }
    split; [done|].
    by destruct (HealthCheck_ok debug origin _ (or_intror Hd)) as [-> _].
Qed.

Lemma health_after_startup_witness :
  let w1 := (Server.startup {| fs := ∅; io_log := [] |}).2 in
  fs w1 !! [Server.DATA_DIR] = Some Dir /\
  json_field "data_files" (Server.HealthCheck true None w1).1 =
    Some (JList (JStr <$> data_listing (fs w1))).
Proof.
  apply (health_after_startup true None {| fs := ∅; io_log := [] |}).
  reflexivity.
Defined.

(** ** Requests do not depend on one another *)

Lemma det_ret {A} (a : A) : fs_determined (ret a).
Proof. by intros w1 w2 H. Qed.

Lemma det_raise {A} (e : exn) : fs_determined (raise (A := A) e).
Proof. by intros w1 w2 H. Qed.

Lemma det_bind {A B} (m : M A) (k : A -> M B) :
  fs_determined m -> (forall a, fs_determined (k a)) ->
  fs_determined (bind m k).
Proof.
  intros Hm Hk w1 w2 H. unfold bind. destruct (Hm w1 w2 H) as [H1 H2].
  destruct (m w1) as [[a1|e1] w1'], (m w2) as [[a2|e2] w2'];
    simpl in *; simplify_eq; [by apply Hk | done].
Qed.

Lemma det_catch {A} (m : M A) (h : exn -> M A) :
  fs_determined m -> (forall e, fs_determined (h e)) ->
  fs_determined (catch m h).
Proof.
  intros Hm Hh w1 w2 H. unfold catch. destruct (Hm w1 w2 H) as [H1 H2].
  destruct (m w1) as [[a1|e1] w1'], (m w2) as [[a2|e2] w2'];
    simpl in *; simplify_eq; [done | by apply Hh].
Qed.

Lemma det_try_except {A} (m : M A) (catches : exn -> bool) (h : M A) :
  fs_determined m -> fs_determined h -> fs_determined (try_except m catches h).
Proof.
  intros Hm Hh. apply det_catch; [done|].
  intros e. destruct (catches e); [done | apply det_raise].
Qed.

Lemma det_path_exists (p : string) : fs_determined (Os.path_exists p).
Proof. intros w1 w2 H. unfold Os.path_exists. simpl. by rewrite H. Qed.

Lemma det_path_isfile (p : string) : fs_determined (Os.path_isfile p).
Proof. intros w1 w2 H. unfold Os.path_isfile. simpl. by rewrite H. Qed.

Lemma det_listdir (p : string) : fs_determined (Os.listdir p).
Proof.
  intros w1 w2 H. unfold Os.listdir. rewrite H.
  by destruct (Os.lookup_node (fs w2) (Os.resolve p)) as [[]|].
Qed.

Lemma det_read_file (p : string) : fs_determined (Os.read_file p).
Proof.
  intros w1 w2 H. unfold Os.read_file. rewrite H.
  by destruct (Os.lookup_node (fs w2) (Os.resolve p)) as [[]|].
Qed.

Create HintDb det.
#[global] Hint Resolve det_ret det_raise det_bind det_catch det_try_except
  det_path_exists det_path_isfile det_listdir det_read_file : det.

Lemma det_send_from_directory (d p : string) (mt : option string) :
  fs_determined (Werkzeug.send_from_directory d p mt).
Proof.
  unfold Werkzeug.send_from_directory.
  destruct (Werkzeug.safe_join d p); [|auto with det].
  apply det_bind; [auto with det|].
  intros []; [unfold Werkzeug.send_file | ]; auto with det.
Qed.

#[global] Hint Resolve det_send_from_directory : det.

Lemma det_route (path : string) (view : M response) :
  Server.route path = Some view -> fs_determined view.
Proof.
  unfold Server.route. repeat case_bool_decide.
  - intros [= <-]. unfold Server.index. auto with det.
  - intros [= <-]. unfold Server.health. apply det_bind; [|auto with det].
    apply det_bind; [auto with det|]. intros []; auto with det.
  - destruct (Flask.after_prefix "/api/" path) as [f|]; [|done].
    destruct (Flask.is_segment f); [|done]. intros [= <-].
    unfold Server.serve_csv.
    destruct (negb (Py.endswith f ".csv")); auto with det.
Qed.

Lemma det_errorhandler (code : Z) (handler : exn -> M response) (e : exn) :
  Server.errorhandler code = Some handler -> fs_determined (handler e).
Proof.
  unfold Server.errorhandler. repeat case_bool_decide; [| |done];
    intros [= <-]; unfold Server.not_found, Server.internal_error;
    auto with det.
Qed.

Lemma det_wsgi_app (debug : bool) (req : request) :
  fs_determined (Flask.wsgi_app (Server.app debug) req).
Proof.
  unfold Flask.wsgi_app. apply det_catch.
  - unfold Flask.full_dispatch_request. apply det_bind; [|auto with det].
    apply det_catch.
    + unfold Flask.dispatch_request. cbn [Server.app Flask.url_map].
      destruct (Server.route (req_path req)) eqn:E;
        [by apply (det_route _ _ E)|].
      unfold Flask.static_rule.
      destruct (Flask.after_prefix "/static/" (req_path req)) as [f|];
        [|auto with det].
      destruct (Flask.is_subpath f); auto with det.
    + intros [| | | |code]; simpl; auto with det.
      unfold Flask.handle_http_exception. cbn [Server.app Flask.error_handlers].
      destruct (Server.errorhandler code) eqn:E;
        [by apply (det_errorhandler _ _ _ E) | auto with det].
  - intros e. unfold Flask.handle_exception.
    cbn [Server.app Flask.debug Flask.error_handlers].
    destruct debug; [auto with det|]. apply det_bind; [|auto with det].
    apply (det_errorhandler 500). reflexivity.
Qed.

Lemma serve_fs_determined (debug : bool) (req : request) (w1 w2 : world) :
  fs w1 = fs w2 ->
  (Flask.serve (Server.app debug) req w1).1 =
    (Flask.serve (Server.app debug) req w2).1.
Proof.
  intros H. unfold Flask.serve.
  destruct (det_wsgi_app debug req w1 w2 H) as [H1 _].
  destruct (Flask.wsgi_app (Server.app debug) req w1) as [[r1|e1] w1'],
           (Flask.wsgi_app (Server.app debug) req w2) as [[r2|e2] w2'];
    simpl in *; by simplify_eq.
Qed.

Lemma serve_all_fs (debug : bool) (reqs : list request) (w : world) :
  fs (serve_all debug reqs w) = fs w.
Proof.
  revert w. induction reqs as [|req reqs IH]; intros w; [done|].
  unfold serve_all in *. simpl. rewrite IH.
  apply serve_frame; [apply route_frame | apply errorhandler_frame].
Qed.

(** X13: the handlers keep no state between requests.  The response to a
    request is the same after any sequence of earlier requests as without
    them, so requests can be answered in any order. *)
Theorem requests_are_independent (debug : bool) (earlier : list request)
    (req : request) (w : world) :
  (Flask.serve (Server.app debug) req (serve_all debug earlier w)).1 =
    (Flask.serve (Server.app debug) req w).1.
Proof. apply serve_fs_determined, serve_all_fs. Qed.

(** ** The warnings of the [__main__] block *)

Lemma main_warnings_eq (w : world) :
  (Server.main_warnings w).1 =
    Ret (missing_warning (fs w) [Server.HTML_FILE] "index.html" ++
         missing_warning (fs w) [Server.DATA_DIR; "Locations.csv"]
           "data/Locations.csv" ++
         missing_warning (fs w) [Server.DATA_DIR; "Tracks.csv"]
           "data/Tracks.csv" ++
         missing_warning (fs w) [Server.DATA_DIR; "Variance.csv"]
           "data/Variance.csv") /\
  fs (Server.main_warnings w).2 = fs w.
Proof.
  unfold Server.main_warnings, Server.required_csvs, bind, Os.path_exists,
    missing_warning.
  cbn [fold_right].
  change (Os.resolve Server.HTML_FILE) with [Server.HTML_FILE].
  change (Os.resolve (Py.path_join Server.DATA_DIR "Locations.csv"))
    with [Server.DATA_DIR; "Locations.csv"].
  change (Os.resolve (Py.path_join Server.DATA_DIR "Tracks.csv"))
    with [Server.DATA_DIR; "Tracks.csv"].
  change (Os.resolve (Py.path_join Server.DATA_DIR "Variance.csv"))
    with [Server.DATA_DIR; "Variance.csv"].
  cbn [Os.lookup_node fs log_event ret fst snd].
  repeat case_bool_decide; done.
Qed.

(** X14: the checks before [app.run] are advisory.  They never raise and
    leave the files alone, and the lines they print name exactly what is
    missing: there is no line at all exactly when [index.html] and the three
    required CSVs exist, and the line of each path is printed exactly when
    nothing is stored at that path. *)
Theorem main_warnings_report (w : world) :
  exists lines,
    (Server.main_warnings w).1 = Ret lines /\
    fs (Server.main_warnings w).2 = fs w /\
    (lines = [] <->
     is_Some (fs w !! [Server.HTML_FILE]) /\
     Forall (fun csv => is_Some (fs w !! [Server.DATA_DIR; csv]))
       Server.required_csvs) /\
    (Server.warning Server.HTML_FILE ∈ lines <->
     fs w !! [Server.HTML_FILE] = None) /\
    Forall
      (fun csv =>
         Server.warning (Server.DATA_DIR +:+ "/" +:+ csv) ∈ lines <->
         fs w !! [Server.DATA_DIR; csv] = None)
      Server.required_csvs.
Proof.
  destruct (main_warnings_eq w) as [Hr Hfs].
  eexists. split; [exact Hr|]. split; [exact Hfs|].
  unfold Server.required_csvs. rewrite !Forall_cons, !Forall_nil.
  rewrite !eq_None_not_Some. unfold missing_warning.
  repeat case_bool_decide; cbn [app];
    rewrite ?elem_of_cons, ?elem_of_nil;
    vm_compute Server.warning; vm_compute String.append;
    repeat split; intros; try tauto; try discriminate;
    repeat match goal with
           | H : _ \/ _ |- _ => destruct H
           | H : _ /\ _ |- _ => destruct H
           end; try tauto; try discriminate; auto.
Qed.

(** ** One request, one file *)

(** X15: the response to [/api/<filename>] depends on the files through the
    one entry [data/<filename>] only: two states that agree on that entry get
    the same response, whatever else is stored, added or removed. *)
Theorem GetDataFile_depends_on_one_entry (debug : bool)
    (origin : option string) (filename : string) (w1 w2 : world) :
  fs w1 !! [Server.DATA_DIR; filename] = fs w2 !! [Server.DATA_DIR; filename] ->
  (Server.GetDataFile debug origin filename w1).1 =
    (Server.GetDataFile debug origin filename w2).1.
Proof. intros H. by rewrite !GetDataFile_cases, H. Qed.

Lemma GetDataFile_depends_on_one_entry_witness :
  (Server.GetDataFile true None "Locations.csv" sample_world).1 =
    (Server.GetDataFile true None "Locations.csv"
       (add_file ["secret.csv"] [] sample_world)).1.
Proof.
  apply (GetDataFile_depends_on_one_entry true None "Locations.csv").
  reflexivity.
Defined.

(** X16: what [/health] lists and what [/api/] serves differ by more than
    the suffix.  In a filesystem with proper entry names, a listed name that
    ends in [.csv] is served with 200 exactly when it is a regular file; a
    listed directory of such a name gets the 404 of the registered
    handler. *)
Theorem listed_csv_served_iff_file (debug : bool) (origin : option string)
    (n : string) (w : world) :
  Os.valid_fs (fs w) ->
  n ∈ data_listing (fs w) ->
  Py.endswith n ".csv" = true ->
  let r := (Server.GetDataFile debug origin n w).1 in
  (forall c, fs w !! [Server.DATA_DIR; n] = Some (File c) ->
             r = file_response origin "text/csv" c) /\
  (fs w !! [Server.DATA_DIR; n] = Some Dir ->
   r = json_error_response origin 404 "Resource not found").
Proof.
  intros Hfs [_ [x Hx]]%data_listing_spec Hs. cbv zeta.
  assert (Flask.is_segment n = true) as Hseg.
  { apply Hfs in Hx as Hk.
    apply Forall_cons_1 in Hk as [_ [Hk _]%Forall_cons_1].
    apply valid_name_spec in Hk as (Hne & _ & _ & Hsl).
    unfold Flask.is_segment. by rewrite Hsl, bool_decide_eq_false_2. }
  rewrite GetDataFile_cases, Hseg, Hs.
  split; [intros c Hc | intros Hd]; by rewrite ?Hc, ?Hd.
Qed.

Lemma listed_csv_served_iff_file_witness :
  (Server.GetDataFile true None "old.csv"
     {| fs := <[[Server.DATA_DIR; "old.csv"] := Dir]> sample_files;
        io_log := [] |}).1 =
    json_error_response None 404 "Resource not found".
Proof.
  refine (proj2 (listed_csv_served_iff_file true None "old.csv"
    {| fs := <[[Server.DATA_DIR; "old.csv"] := Dir]> sample_files;
       io_log := [] |} _ _ _) _).
  - unfold Os.valid_fs. apply (bool_decide_unpack _). vm_compute.
    reflexivity.
  - apply data_listing_spec. split; [reflexivity|]. by eexists.
  - reflexivity.
  - reflexivity.
Defined.

Example plain_path_api : Flask.plain_path "/api/sub/x.csv" = true.
Proof. reflexivity. Qed.

Example plain_path_doubled : Flask.plain_path "/api//Locations.csv" = false.
Proof. reflexivity. Qed.

Example plain_path_leading : Flask.plain_path "//health" = false.
Proof. reflexivity. Qed.

Example empty_origin_gets_wildcard :
  header_get FlaskCors.ACL_ORIGIN
    (Server.HealthCheck true (Some EmptyString) sample_world).1 = Some "*".
Proof. by vm_compute. Qed.

Example origin_is_echoed :
  header_get FlaskCors.ACL_ORIGIN
    (Server.HealthCheck true (Some "http://a") sample_world).1
    = Some "http://a".
Proof. by vm_compute. Qed.

Example safe_join_empty_name : Werkzeug.safe_join "data" EmptyString = Some "data".
Proof. reflexivity. Qed.
